(** * The billing ledger of src/app.js

    A shallow embedding of the invoice / payment-voucher core of the
    application: the number allocator, the invoice form and its total,
    the invoice save handler, the payment transaction, the dashboard
    rollup and the sign-in page, each translated from the handler of the
    same name.

    Modelling decisions, valid for the whole file:
    - A JavaScript number is an IEEE 754 binary64 value.  Sums, differences
      and products are rounded to nearest, ties to even, as [SpecFloat]
      specifies them for precision 53 and maximal exponent 1024; a decimal
      literal stands for the double nearest to it.
    - A numeric document field is absent ([VUndefined]), [null] or a number;
      the handlers never write a string or a boolean there.
    - A Firestore collection is a finite map from document id to document.
    - A status is the string the source stores. *)

From Stdlib Require Import ZArith QArith String List Permutation.
From Stdlib Require Import Floats.SpecFloat.
From stdpp Require Import base option list sorting strings gmap.
Import ListNotations.
Local Open Scope string_scope.
Local Open Scope list_scope.

(** ** JavaScript numbers and the values of numeric fields *)
Module JS.

(** [Finite s m e] is [(-1)^s * m * 2^e].  The doubles are the values
    [valid] accepts: [m < 2^53] with the exponent in canonical form.  The
    two zeros of IEEE 754 are one value here: the application never
    divides and never looks at the sign of a zero, and [===], [<=], [||]
    and [+] with a non-zero operand do not tell them apart. *)
Inductive number : Type :=
| NaN
| Infinity (negative : bool)
| Zero
| Finite (negative : bool) (m : positive) (e : Z).

Definition prec : Z := 53.
Definition emax : Z := 1024.

Definition toSF (n : number) : spec_float :=
  match n with
  | NaN => S754_nan
  | Infinity s => S754_infinity s
  | Zero => S754_zero false
  | Finite s m e => S754_finite s m e
  end.

Definition ofSF (x : spec_float) : number :=
  match x with
  | S754_nan => NaN
  | S754_infinity s => Infinity s
  | S754_zero _ => Zero
  | S754_finite s m e => Finite s m e
  end.

Definition valid (n : number) : bool := valid_binary prec emax (toSF n).

(** The value of a finite number in units of [2^emin], the least positive
    double ([emin] is -1074): an integer when the number is a double. *)
Definition units (n : number) : Z :=
  match n with
  | Finite s m e => (if s then -1 else 1) * Zpos m * 2 ^ (e - emin prec emax)
  | _ => 0
  end.

(** [a + b], [a - b] and [a * b] *)
Definition add (a b : number) : number := ofSF (SFadd prec emax (toSF a) (toSF b)).

Definition sub (a b : number) : number := ofSF (SFsub prec emax (toSF a) (toSF b)).

Definition mul (a b : number) : number := ofSF (SFmul prec emax (toSF a) (toSF b)).

(** [a <= b]: false as soon as one side is [NaN]. *)
Definition leb (a b : number) : bool := SFleb (toSF a) (toSF b).

(** [a < b] *)
Definition ltb (a b : number) : bool := SFltb (toSF a) (toSF b).

(** A literal such as [0], [1001] or [0.25]: the double nearest to the
    decimal, obtained by one correctly rounded division of its numerator
    by its denominator (both below [2^53] for the literals used here). *)
Definition lit (q : Q) : number :=
  ofSF (SFdiv prec emax
          (binary_normalize prec emax (Qnum q) 0 false)
          (binary_normalize prec emax (Zpos (Qden q)) 0 false)).

Inductive value : Type :=
| VUndefined
| VNull
| VNum (n : number).

(** [Number(v)], also the conversion an arithmetic operator applies. *)
Definition ToNumber (v : value) : number :=
  match v with
  | VUndefined => NaN
  | VNull => lit 0
  | VNum n => n
  end.

(** Truthiness: [undefined], [null], [0] and [NaN] are falsy. *)
Definition truthy (v : value) : bool :=
  match v with
  | VNum NaN | VNum Zero => false
  | VNum _ => true
  | _ => false
  end.

(** [a || b] *)
Definition or (a b : value) : value := if truthy a then a else b.

(** [Math.max(n, ...ns)], called with at least one argument. *)
Definition Math_max (n : Z) (ns : list Z) : Z := fold_left Z.max ns n.

#[global] Instance number_eq_dec : EqDecision number.
Proof. solve_decision. Defined.

#[global] Instance value_eq_dec : EqDecision value.
Proof. solve_decision. Defined.

End JS.

Import JS.

#[global] Arguments lit : simpl never.
#[global] Arguments add : simpl never.
#[global] Arguments sub : simpl never.
#[global] Arguments mul : simpl never.
#[global] Arguments leb : simpl never.
#[global] Arguments ltb : simpl never.

(** ** Status strings (the keys of [StatusBadge]) *)
Definition Paid : string := "مدفوعة".
Definition PartiallyPaid : string := "مدفوعة جزئياً".
Definition Pending : string := "قيد الانتظار".
Definition Overdue : string := "متأخرة".

(** ** Documents *)

Module LineItem.
Record t : Type := mk
  { serviceId : string;
    name : string;
    quantity : number;
    price : number }.
End LineItem.

Module Invoice.
(** An invoice document.  [items], [total], [paidAmount] and
    [remainingAmount] may be missing: the source guards each of them
    with [||]. *)
Record t : Type := mk
  { customerId : string;
    customerName : string;
    date : string;
    items : option (list LineItem.t);
    total : value;
    paidAmount : value;
    remainingAmount : value;
    invoiceNumber : Z;
    status : string }.
End Invoice.

#[global] Instance LineItem_eq_dec : EqDecision LineItem.t.
Proof. solve_decision. Defined.

#[global] Instance Invoice_eq_dec : EqDecision Invoice.t.
Proof. solve_decision. Defined.

Module VoucherData.
(** What the voucher form submits: [{...formData, amount: Number(formData.amount)}]. *)
Record t : Type := mk
  { customerId : string;
    invoiceId : string;
    amount : number;
    date : string;
    customerName : string;
    invoiceNumber : option Z }.
End VoucherData.

Module Voucher.
(** [{ ...voucherData, voucherNumber, createdAt }] *)
Record t : Type := mk
  { data : VoucherData.t;
    voucherNumber : Z;
    createdAt : Z }.
End Voucher.

(** ** The ledger store *)
Module Db.
Record t : Type := mk
  { invoices : gmap string Invoice.t;
    vouchers : gmap string Voucher.t }.
End Db.

(** ** Transactions

    [runTransaction(db, body)]: [body] reads through [transaction.get] and
    queues its writes.  The queue is applied in one step when [body] has
    returned and the store accepts the commit; it is dropped when [body]
    throws or a queued [update] finds no document.  The store refuses a
    commit when a document [body] read has been written by another client
    in the meantime; the transaction then runs [body] again, and fails
    once its attempts are used up. *)
Module Tx.

Inductive Error : Type :=
| Thrown (msg : string)
| CommitFailed.

(** The fields [transaction.update] sets on an invoice. *)
Record Patch : Type := mkPatch
  { paidAmount : number;
    remainingAmount : number;
    status : string }.

Inductive Write : Type :=
| Update (ref : string) (p : Patch)
| SetVoucher (ref : string) (v : Voucher.t).

(** What one run of [body] has done so far: the invoices it read and the
    writes it queued. *)
Record Log : Type := mkLog
  { reads : list string;
    writes : list Write }.

Definition M (A : Type) : Type := Db.t -> Log -> Error + (A * Log).

Definition ret {A} (a : A) : M A := fun _ log => inr (a, log).

Definition bind {A B} (m : M A) (k : A -> M B) : M B :=
  fun db log =>
    match m db log with
    | inl e => inl e
    | inr (a, log') => k a db log'
    end.

Definition throw {A} (msg : string) : M A := fun _ _ => inl (Thrown msg).

(** [transaction.get(invoiceRef)]: the snapshot, [None] when [exists()] is false. *)
Definition get (ref : string) : M (option Invoice.t) :=
  fun db log => inr (Db.invoices db !! ref, mkLog (reads log ++ [ref]) (writes log)).

Definition update (ref : string) (p : Patch) : M unit :=
  fun _ log => inr (tt, mkLog (reads log) (writes log ++ [Update ref p])).

Definition set (ref : string) (v : Voucher.t) : M unit :=
  fun _ log => inr (tt, mkLog (reads log) (writes log ++ [SetVoucher ref v])).

Definition patch (p : Patch) (inv : Invoice.t) : Invoice.t :=
  Invoice.mk (Invoice.customerId inv) (Invoice.customerName inv)
    (Invoice.date inv) (Invoice.items inv) (Invoice.total inv)
    (VNum (paidAmount p)) (VNum (remainingAmount p))
    (Invoice.invoiceNumber inv) (status p).

Definition apply (w : Write) (db : Db.t) : option Db.t :=
  match w with
  | Update ref p =>
      match Db.invoices db !! ref with
      | Some inv => Some (Db.mk (<[ref := patch p inv]> (Db.invoices db)) (Db.vouchers db))
      | None => None
      end
  | SetVoucher ref v => Some (Db.mk (Db.invoices db) (<[ref := v]> (Db.vouchers db)))
  end.

Fixpoint commit (ws : list Write) (db : Db.t) : option Db.t :=
  match ws with
  | [] => Some db
  | w :: ws' =>
      match apply w db with
      | Some db' => commit ws' db'
      | None => None
      end
  end.

(** A transaction on a store no other client writes to meanwhile: one run
    of [body], whose commit the store accepts. *)
Definition runTransaction {A} (db : Db.t) (body : M A) : Db.t * (Error + A) :=
  match body db (mkLog [] []) with
  | inl e => (db, inl e)
  | inr (a, log) =>
      match commit (writes log) db with
      | Some db' => (db', inr a)
      | None => (db, inl CommitFailed)
      end
  end.

(** What surrounds one run of [body]: the writes [others] that other
    clients get through between the reads of the run and its commit, and
    whether the store accepts the commit.  The store never accepts when a
    document the run read is no longer what it read; it may refuse for any
    other reason (a document rewritten with the same content, a lost
    connection). *)
Record Attempt : Type := mkAttempt
  { others : Db.t -> Db.t;
    accepted : bool }.

(** The invoices [refs] are in [db'] what they were in [db]. *)
Definition unchanged (refs : list string) (db db' : Db.t) : bool :=
  forallb (fun ref => bool_decide (Db.invoices db' !! ref = Db.invoices db !! ref)) refs.


(** [runTransaction] on a store other clients write to.  [runs] lists the
    attempts the transaction is allowed, each with the callback as that
    run executes it; the transaction fails when none is left. *)
Fixpoint runTransactionAmid {A} (runs : list (M A * Attempt)) (db : Db.t)
    : Db.t * (Error + A) :=
  match runs with
  | [] => (db, inl CommitFailed)
  | (body, attempt) :: runs' =>
      match body db (mkLog [] []) with
      | inl e => (db, inl e)
      | inr (a, log) =>
          let db' := others attempt db in
          if accepted attempt && unchanged (reads log) db db'
          then match commit (writes log) db' with
               | Some db'' => (db'', inr a)
               | None => (db', inl CommitFailed)
               end
          else runTransactionAmid runs' db'
      end
  end.

End Tx.

#[global] Instance Tx_ret : MRet Tx.M := @Tx.ret.
#[global] Instance Tx_bind : MBind Tx.M := fun A B k m => Tx.bind m k.

(** ** PaymentVouchers *)
Module PaymentVouchers.

(** [vouchers.length > 0 ? Math.max(...vouchers.map(v => v.voucherNumber)) + 1 : 1] *)
Definition newVoucherNumber (vouchers : list Voucher.t) : Z :=
  match map Voucher.voucherNumber vouchers with
  | [] => 1
  | n :: ns => Math_max n ns + 1
  end.

(** The callback given to [runTransaction].  [vouchers] is the component's
    snapshot state, [newVoucherRef] the id of [doc(voucherCollection)] and
    [now] the value of [serverTimestamp()]. *)
Definition transactionBody (vouchers : list Voucher.t) (newVoucherRef : string)
    (now : Z) (voucherData : VoucherData.t) : Tx.M unit :=
  let invoiceRef := VoucherData.invoiceId voucherData in
  invoiceSnap ← Tx.get invoiceRef;
  match invoiceSnap with
  | None => Tx.throw "Invoice does not exist!"
  | Some invoiceData =>
      let newPaidAmount :=
        add (ToNumber (or (Invoice.paidAmount invoiceData) (VNum (lit 0))))
            (VoucherData.amount voucherData) in
      let newRemainingAmount :=
        sub (ToNumber (Invoice.total invoiceData)) newPaidAmount in
      let newStatus :=
        if leb newRemainingAmount (lit 0) then Paid else PartiallyPaid in
      Tx.update invoiceRef (Tx.mkPatch newPaidAmount newRemainingAmount newStatus);;
      Tx.set newVoucherRef
        (Voucher.mk voucherData (newVoucherNumber vouchers) now)
  end.

(** What [handleSave] leaves behind: the store, whether the modal is still
    open, and the error handed to [console.error], if any. *)
Record Outcome : Type := mkOutcome
  { db : Db.t;
    isModalOpen : bool;
    failed : option Tx.Error }.

(** [handleSave] on a store no other client writes to meanwhile. *)
Definition handleSave (vouchers : list Voucher.t) (newVoucherRef : string)
    (now : Z) (voucherData : VoucherData.t) (store : Db.t) : Outcome :=
  match Tx.runTransaction store
          (transactionBody vouchers newVoucherRef now voucherData) with
  | (store', inr _) => mkOutcome store' false None
  | (store', inl e) => mkOutcome store' true (Some e)
  end.

(** One run of the callback: the id [doc(voucherCollection)] generates in
    it, the server's time, and what surrounds the run. *)
Record Run : Type := mkRun
  { run_ref : string;
    run_now : Z;
    run_attempt : Tx.Attempt }.

(** [handleSave] on a store other clients write to: the callback is run
    once per attempt, each time with a newly generated voucher id. *)
Definition handleSaveAmid (vouchers : list Voucher.t) (runs : list Run)
    (voucherData : VoucherData.t) (store : Db.t) : Outcome :=
  match Tx.runTransactionAmid
          (map (fun run =>
                  (transactionBody vouchers (run_ref run) (run_now run) voucherData,
                   run_attempt run))
               runs)
          store with
  | (store', inr _) => mkOutcome store' false None
  | (store', inl e) => mkOutcome store' true (Some e)
  end.

End PaymentVouchers.

(** ** The invoice form data *)
Module FormData.
(** The state of [InvoiceForm].  A new form has the first five fields only;
    a form opened on an invoice is [{...invoice, items: ...}], so it also
    carries that invoice's remaining fields ([None] / [VUndefined] when the
    form has no such property). *)
Record t : Type := mk
  { customerId : string;
    customerName : string;
    date : string;
    items : list LineItem.t;
    total : value;
    paidAmount : value;
    remainingAmount : value;
    invoiceNumber : option Z;
    status : option string;
    id : option string }.
End FormData.

(** ** Invoices *)
Module Invoices.

(** [invoices.length > 0 ? Math.max(...invoices.map(i => i.invoiceNumber)) + 1 : 1001] *)
Definition newInvoiceNumber (invoices : list Invoice.t) : Z :=
  match map Invoice.invoiceNumber invoices with
  | [] => 1001
  | n :: ns => Math_max n ns + 1
  end.

(** [dataToSave], after [remainingAmount] has been assigned. *)
Definition dataToSave (invoiceData : FormData.t) : FormData.t :=
  let total := VNum (ToNumber (FormData.total invoiceData)) in
  let paidAmount :=
    or (VNum (ToNumber (FormData.paidAmount invoiceData))) (VNum (lit 0)) in
  FormData.mk (FormData.customerId invoiceData) (FormData.customerName invoiceData)
    (FormData.date invoiceData) (FormData.items invoiceData)
    total paidAmount
    (VNum (sub (ToNumber total) (ToNumber paidAmount)))
    (FormData.invoiceNumber invoiceData) (FormData.status invoiceData)
    (FormData.id invoiceData).

(** [updateDoc(invoiceDoc, data)]: the fields [data] has replace the stored
    ones, the others stay.  (The [id] property a loaded form carries is
    written too; documents here do not record it.) *)
Definition merge (data : FormData.t) (old : Invoice.t) : Invoice.t :=
  Invoice.mk (FormData.customerId data) (FormData.customerName data)
    (FormData.date data) (Some (FormData.items data))
    (FormData.total data) (FormData.paidAmount data) (FormData.remainingAmount data)
    (default (Invoice.invoiceNumber old) (FormData.invoiceNumber data))
    (default (Invoice.status old) (FormData.status data)).

(** [{...dataToSave, invoiceNumber: newInvoiceNumber, status: 'قيد الانتظار'}] *)
Definition newDoc (data : FormData.t) (newInvoiceNumber : Z) : Invoice.t :=
  Invoice.mk (FormData.customerId data) (FormData.customerName data)
    (FormData.date data) (Some (FormData.items data))
    (FormData.total data) (FormData.paidAmount data) (FormData.remainingAmount data)
    newInvoiceNumber Pending.

(** The store afterwards, whether the modal is still open, and whether the
    returned promise was rejected ([updateDoc] on a document that is gone). *)
Record Outcome : Type := mkOutcome
  { db : Db.t;
    isModalOpen : bool;
    rejected : bool }.

(** [invoices] and [currentInvoice] are the component's state, [newId] the
    id [addDoc] gives the new document.  [currentInvoice && currentInvoice.id]
    holds exactly when an invoice is being edited: a document id is never
    the empty string. *)
Definition handleSave (invoices : list Invoice.t)
    (currentInvoice : option (string * Invoice.t)) (newId : string)
    (invoiceData : FormData.t) (store : Db.t) : Outcome :=
  let data := dataToSave invoiceData in
  match currentInvoice with
  | Some (id, _) =>
      match Db.invoices store !! id with
      | Some old =>
          mkOutcome (Db.mk (<[id := merge data old]> (Db.invoices store))
                          (Db.vouchers store)) false false
      | None => mkOutcome store true true
      end
  | None =>
      mkOutcome
        (Db.mk (<[newId := newDoc data (newInvoiceNumber invoices)]> (Db.invoices store))
              (Db.vouchers store)) false false
  end.

(** [handleDelete(id)]; [confirmed] is the answer of [window.confirm].
    [deleteDoc] removes the invoice document and nothing else. *)
Definition handleDelete (confirmed : bool) (id : string) (store : Db.t) : Db.t :=
  if confirmed
  then Db.mk (delete id (Db.invoices store)) (Db.vouchers store)
  else store.

(** The remaining amount a row of the invoice table shows:
    [(invoice.total || 0) - (invoice.paidAmount || 0)]. *)
Definition remaining (invoice : Invoice.t) : number :=
  sub (ToNumber (or (Invoice.total invoice) (VNum (lit 0))))
      (ToNumber (or (Invoice.paidAmount invoice) (VNum (lit 0)))).

End Invoices.

(** ** InvoiceForm *)
Module InvoiceForm.

Record Customer : Type := mkCustomer
  { customer_id : string;
    customer_name : string }.

Record Service : Type := mkService
  { service_id : string;
    service_name : string;
    service_price : number }.

(** [{ serviceId:'', name: '', quantity: 1, price: 0 }] *)
Definition blankItem : LineItem.t := LineItem.mk "" "" (lit 1) (lit 0).

(** [items.reduce((sum, item) => sum + (Number(item.quantity) * Number(item.price)), 0)];
    quantity and price are numbers already. *)
Definition calculateTotal (items : list LineItem.t) : number :=
  fold_left
    (fun sum item => add sum (mul (LineItem.quantity item) (LineItem.price item)))
    items (lit 0).

(** The effect on [[invoice]]: the form data when the form is given
    [invoice]; [today] is [new Date().toISOString().slice(0, 10)]. *)
Definition load (today : string) (invoice : option (string * Invoice.t)) : FormData.t :=
  match invoice with
  | Some (id, inv) =>
      FormData.mk (Invoice.customerId inv) (Invoice.customerName inv)
        (Invoice.date inv) (default [blankItem] (Invoice.items inv))
        (Invoice.total inv) (Invoice.paidAmount inv) (Invoice.remainingAmount inv)
        (Some (Invoice.invoiceNumber inv)) (Some (Invoice.status inv)) (Some id)
  | None =>
      FormData.mk "" "" today [blankItem] (VNum (lit 0))
        VUndefined VUndefined None None None
  end.

Definition withItems (items : list LineItem.t) (prev : FormData.t) : FormData.t :=
  FormData.mk (FormData.customerId prev) (FormData.customerName prev)
    (FormData.date prev) items (FormData.total prev)
    (FormData.paidAmount prev) (FormData.remainingAmount prev)
    (FormData.invoiceNumber prev) (FormData.status prev) (FormData.id prev).

(** The effect on [[formData.items]]: [setFormData(prev => ({...prev, total: newTotal}))]. *)
Definition recalculate (prev : FormData.t) : FormData.t :=
  FormData.mk (FormData.customerId prev) (FormData.customerName prev)
    (FormData.date prev) (FormData.items prev)
    (VNum (calculateTotal (FormData.items prev)))
    (FormData.paidAmount prev) (FormData.remainingAmount prev)
    (FormData.invoiceNumber prev) (FormData.status prev) (FormData.id prev).

Definition handleCustomerChange (customers : list Customer) (customerId : string)
    (prev : FormData.t) : FormData.t :=
  let customer := find (fun c => bool_decide (customer_id c = customerId)) customers in
  FormData.mk customerId
    (match customer with Some c => customer_name c | None => "" end)
    (FormData.date prev) (FormData.items prev) (FormData.total prev)
    (FormData.paidAmount prev) (FormData.remainingAmount prev)
    (FormData.invoiceNumber prev) (FormData.status prev) (FormData.id prev).

Definition handleDateChange (date : string) (prev : FormData.t) : FormData.t :=
  FormData.mk (FormData.customerId prev) (FormData.customerName prev)
    date (FormData.items prev) (FormData.total prev)
    (FormData.paidAmount prev) (FormData.remainingAmount prev)
    (FormData.invoiceNumber prev) (FormData.status prev) (FormData.id prev).

(** [index] is the row the control belongs to, so it is in range; out of
    range the model leaves the rows as they are. *)
Definition handleServiceChange (services : list Service) (index : nat)
    (serviceId : string) (formData : FormData.t) : FormData.t :=
  let service := find (fun s => bool_decide (service_id s = serviceId)) services in
  let newItems :=
    alter
      (fun item =>
         match service with
         | Some s =>
             LineItem.mk (service_id s) (service_name s)
               (LineItem.quantity item) (service_price s)
         | None => LineItem.mk "" "" (LineItem.quantity item) (lit 0)
         end)
      index (FormData.items formData) in
  withItems newItems formData.

(** [newItems[index].quantity = Number(e.target.value)] *)
Definition handleQuantityChange (index : nat) (quantity : number)
    (formData : FormData.t) : FormData.t :=
  let newItems :=
    alter
      (fun item =>
         LineItem.mk (LineItem.serviceId item) (LineItem.name item)
           quantity (LineItem.price item))
      index (FormData.items formData) in
  withItems newItems formData.

Definition addItem (prev : FormData.t) : FormData.t :=
  withItems (FormData.items prev ++ [blankItem]) prev.

(** [formData.items.filter((_, i) => i !== index)] *)
Definition removeItem (index : nat) (formData : FormData.t) : FormData.t :=
  withItems (delete index (FormData.items formData)) formData.

Inductive Event : Type :=
| CustomerChange (customers : list Customer) (customerId : string)
| DateChange (date : string)
| ServiceChange (services : list Service) (index : nat) (serviceId : string)
| QuantityChange (index : nat) (quantity : number)
| AddItem
| RemoveItem (index : nat).

Definition handle (e : Event) (formData : FormData.t) : FormData.t :=
  match e with
  | CustomerChange customers customerId => handleCustomerChange customers customerId formData
  | DateChange date => handleDateChange date formData
  | ServiceChange services index serviceId =>
      handleServiceChange services index serviceId formData
  | QuantityChange index quantity => handleQuantityChange index quantity formData
  | AddItem => addItem formData
  | RemoveItem index => removeItem index formData
  end.

(** One user event, followed by the effects of the render it causes. *)
Definition step (e : Event) (formData : FormData.t) : FormData.t :=
  recalculate (handle e formData).

(** The form data once the effect on [[invoice]] has loaded [invoice]
    (when the form is mounted, and again whenever the [invoice] prop
    changes identity) and the user has since made the events [es], oldest
    first.  Closing the modal does not unmount the form, so the events of
    an earlier opening on the same [invoice] object are part of [es].
    [handleQuantityChange] assigns to the item object it shares with
    [invoice.items]: [invoice] stands for the object as it is when it is
    loaded. *)
Definition session (today : string) (invoice : option (string * Invoice.t))
    (es : list Event) : FormData.t :=
  fold_left (fun formData e => step e formData) es (recalculate (load today invoice)).

End InvoiceForm.

(** ** Dashboard *)
Module Dashboard.

Definition monthNames : list string :=
  ["يناير"; "فبراير"; "مارس"; "أبريل"; "مايو"; "يونيو";
   "يوليو"; "أغسطس"; "سبتمبر"; "أكتوبر"; "نوفمبر"; "ديسمبر"].

(** [{ name: monthName, sales: 0 }]; [name] is [None] when
    [monthNames[monthIndex]] is [undefined]. *)
Record Bucket : Type := mkBucket
  { name : option string;
    sales : number }.

(** What the invoices listener hands to [setStats], [setRecentInvoices]
    and [setSalesData]. *)
Record View : Type := mkView
  { stats_sales : number;
    stats_profit : number;
    stats_invoices : nat;
    recentInvoices : list Invoice.t;
    salesData : list Bucket }.

Section Host.
(** The host's [Date], on the date strings of the documents:
    [getTime s] is [new Date(s)] as a number, [getMonth s] is
    [new Date(s).getMonth()].  [Host] below gives both for a host with a
    fixed offset from UTC. *)
Variable getTime : string -> Z.
Variable getMonth : string -> nat.

(** [allInvoices.sort((a, b) => new Date(b.date) - new Date(a.date))]:
    latest date first.  [Array.prototype.sort] is stable (ECMAScript 2019,
    23.1.3.27), which fixes its result: the invoices of one date keep the
    order they had.  Insertion from the right computes that list. *)
Fixpoint insert (a : Invoice.t) (l : list Invoice.t) : list Invoice.t :=
  match l with
  | [] => [a]
  | b :: l' =>
      if (getTime (Invoice.date b) <=? getTime (Invoice.date a))%Z
      then a :: b :: l'
      else b :: insert a l'
  end.

Definition sort (l : list Invoice.t) : list Invoice.t := foldr insert [] l.

(** [monthNames[new Date(inv.date).getMonth()]] *)
Definition monthName (inv : Invoice.t) : option string :=
  monthNames !! getMonth (Invoice.date inv).

(** One turn of [allInvoices.forEach]; [monthlySales] holds the object's
    values in the order its keys were created. *)
Definition addSale (monthlySales : list Bucket) (inv : Invoice.t) : list Bucket :=
  let monthName := monthName inv in
  let monthlySales :=
    if bool_decide (monthName ∈ map name monthlySales)
    then monthlySales
    else monthlySales ++ [mkBucket monthName (lit 0)] in
  map (fun b =>
         if bool_decide (name b = monthName)
         then mkBucket (name b) (add (sales b) (ToNumber (Invoice.total inv)))
         else b)
      monthlySales.

(** The callback of the invoices listener.  [sort] works in place, so the
    [forEach] after it runs over the sorted array. *)
Definition onInvoices (allInvoices : list Invoice.t) : View :=
  let totalSales :=
    fold_left (fun sum inv => add sum (ToNumber (Invoice.total inv)))
      allInvoices (lit 0) in
  let allInvoices := sort allInvoices in
  let recent := take 5 allInvoices in
  let monthlySales := fold_left addSale allInvoices [] in
  mkView totalSales (mul totalSales (lit 0.25)) (length allInvoices)
    recent monthlySales.

End Host.

End Dashboard.

(** ** The host's [Date]

    The date strings of the documents have the form [YYYY-MM-DD], as the
    date inputs produce them.  [new Date(s)] on such a string is midnight
    UTC of that day (ECMAScript 21.4.1.32: a date-only form is UTC);
    [getMonth()] is the month of that instant in local time, here
    [offset] minutes east of UTC. *)
Module Host.

Definition digit (c : Ascii.ascii) : Z := Z.of_nat (Ascii.nat_of_ascii c) - 48.

Fixpoint digits (s : string) (acc : Z) : Z :=
  match s with
  | EmptyString => acc
  | String c s' => digits s' (10 * acc + digit c)
  end.

Definition year (s : string) : Z := digits (substring 0 4 s) 0.
Definition month (s : string) : Z := digits (substring 5 2 s) 0.
Definition day (s : string) : Z := digits (substring 8 2 s) 0.

(** Days from 1970-01-01 to the civil date [y]-[m]-[d]. *)
Definition daysFromCivil (y m d : Z) : Z :=
  let y' := if (m <=? 2)%Z then (y - 1)%Z else y in
  let era := (y' / 400)%Z in
  let yoe := (y' - era * 400)%Z in
  let mp := if (2 <? m)%Z then (m - 3)%Z else (m + 9)%Z in
  let doy := ((153 * mp + 2) / 5 + d - 1)%Z in
  let doe := (yoe * 365 + yoe / 4 - yoe / 100 + doy)%Z in
  (era * 146097 + doe - 719468)%Z.

(** The month, 1 to 12, of the day that lies [days] days after 1970-01-01. *)
Definition monthFromDays (days : Z) : Z :=
  let z := (days + 719468)%Z in
  let era := (z / 146097)%Z in
  let doe := (z - era * 146097)%Z in
  let yoe := ((doe - doe / 1460 + doe / 36524 - doe / 146096) / 365)%Z in
  let doy := (doe - (365 * yoe + yoe / 4 - yoe / 100))%Z in
  let mp := ((5 * doy + 2) / 153)%Z in
  if (mp <? 10)%Z then (mp + 3)%Z else (mp - 9)%Z.

Definition msPerDay : Z := 86400000.
Definition msPerMinute : Z := 60000.

(** [new Date(s)] as a number: milliseconds since 1970-01-01T00:00Z. *)
Definition getTime (s : string) : Z :=
  (msPerDay * daysFromCivil (year s) (month s) (day s))%Z.

(** [new Date(s).getMonth()]: the month, 0 to 11, of the local day the
    instant falls on. *)
Definition getMonth (offset : Z) (s : string) : nat :=
  Z.to_nat (monthFromDays ((getTime s + offset * msPerMinute) / msPerDay) - 1).







End Host.

(** ** VouchersForInvoiceModal *)
Module VouchersForInvoiceModal.

(** [query(collection(db, vouchers), where("invoiceId", "==", invoice.id))]:
    the documents the listener delivers for the invoice [invoiceId]. *)
Definition vouchersQuery (invoiceId : string) (store : Db.t) : gmap string Voucher.t :=
  filter (fun kv => VoucherData.invoiceId (Voucher.data kv.2) = invoiceId)
    (Db.vouchers store).

End VouchersForInvoiceModal.

(** ** PaymentVoucherForm *)
Module PaymentVoucherForm.

(** The amount control: [''], the remaining amount put there when an
    invoice is chosen, or the text the user typed. *)
Inductive Amount : Type :=
| Blank
| Suggested (n : number)
| Typed (text : string).

Record FormData : Type := mkFormData
  { customerId : string;
    invoiceId : string;
    amount : Amount;
    date : string;
    customerName : string;
    invoiceNumber : option Z }.

(** [getDocs(query(invoices, where("customerId", "==", customerId),
    where("status", "in", ["قيد الانتظار", "مدفوعة جزئياً"])))]:
    the invoices offered for payment. *)
Definition invoicesQuery (customerId : string) (store : Db.t) : gmap string Invoice.t :=
  filter
    (fun kv => Invoice.customerId kv.2 = customerId /\
               Invoice.status kv.2 ∈ [Pending; PartiallyPaid])
    (Db.invoices store).

(** [invoices] is the result of [invoicesQuery] the form holds; an id that
    is not in it leaves the form as it is. *)
Definition handleInvoiceChange (invoices : gmap string Invoice.t) (invoiceId : string)
    (formData : FormData) : FormData :=
  match invoices !! invoiceId with
  | Some selectedInvoice =>
      let remaining :=
        sub (ToNumber (or (Invoice.total selectedInvoice) (VNum (lit 0))))
            (ToNumber (or (Invoice.paidAmount selectedInvoice) (VNum (lit 0)))) in
      mkFormData (customerId formData) invoiceId (Suggested remaining)
        (date formData) (customerName formData)
        (Some (Invoice.invoiceNumber selectedInvoice))
  | None => formData
  end.

End PaymentVoucherForm.

(** ** AuthPage *)
Module AuthPage.

(** A user name or password: its UTF-16 code units, which is what [length]
    counts and the pattern inspects. *)
Definition text : Type := list N.

Record Profile : Type := mkProfile
  { username : text;
    password : text;
    createdAt : Z }.

Inductive Result : Type :=
| LoginSuccess (username : text)
| Error (message : string).

Definition userNotFound : string := "اسم المستخدم غير موجود.".
Definition wrongPassword : string := "كلمة المرور غير صحيحة.".
Definition usernameTaken : string := "اسم المستخدم هذا مستخدم بالفعل.".
Definition passwordTooShort : string := "كلمة المرور يجب أن تتكون من 6 أحرف على الأقل.".
Definition usernameNotAlphanumeric : string :=
  "اسم المستخدم يجب أن يحتوي على أحرف وأرقام إنجليزية فقط.".

(** One unit of [[a-zA-Z0-9]]. *)
Definition alphanumeric (c : N) : bool :=
  ((48 <=? c) && (c <=? 57) || (65 <=? c) && (c <=? 90) || (97 <=? c) && (c <=? 122))%N.

(** [/^[a-zA-Z0-9]+$/.test(username)] *)
Definition usernamePattern (username : text) : bool :=
  match username with
  | [] => false
  | _ => forallb alphanumeric username
  end.

(** [query(profilesCollection, where("username", "==", name))] on the
    profiles in the order the store lists them. *)
Definition profilesQuery (name : text) (profiles : list Profile) : list Profile :=
  filter (fun p => username p = name) profiles.

(** [addDoc]: the new document takes the place [pos] its generated id gives
    it among the others. *)
Definition addDoc (pos : nat) (p : Profile) (profiles : list Profile) : list Profile :=
  take pos profiles ++ p :: drop pos profiles.

(** [handleSubmit] on a store that answers and that no other client writes
    to between this call's [getDocs] and its [addDoc]: the profiles
    afterwards and either the user handed to [onLoginSuccess] or the
    message handed to [setError].  [toLowerCase] is the host's
    [String.prototype.toLowerCase], [now] the value of [serverTimestamp()].
    [overlappingRegistrations] below is the case of two calls in flight. *)
Definition handleSubmit (toLowerCase : text -> text) (isLogin : bool)
    (username password : text) (now : Z) (pos : nat) (profiles : list Profile)
    : list Profile * Result :=
  let docs := profilesQuery (toLowerCase username) profiles in
  if isLogin then
    match docs with
    | [] => (profiles, Error userNotFound)
    | userDoc :: _ =>
        if bool_decide (AuthPage.password userDoc = password)
        then (profiles, LoginSuccess (AuthPage.username userDoc))
        else (profiles, Error wrongPassword)
    end
  else
    match docs with
    | _ :: _ => (profiles, Error usernameTaken)
    | [] =>
        if (length password <? 6)%nat then (profiles, Error passwordTooShort)
        else if negb (usernamePattern username)
        then (profiles, Error usernameNotAlphanumeric)
        else (addDoc pos (mkProfile (toLowerCase username) password now) profiles,
              LoginSuccess (toLowerCase username))
    end.

(** The registration branch of [handleSubmit] up to [await addDoc]:
    the profile it is about to add, or the message for [setError].
    [snapshot] is the collection as [getDocs] saw it. *)
Definition registration (toLowerCase : text -> text) (username password : text)
    (now : Z) (snapshot : list Profile) : Profile + string :=
  match profilesQuery (toLowerCase username) snapshot with
  | _ :: _ => inr usernameTaken
  | [] =>
      if (length password <? 6)%nat then inr passwordTooShort
      else if negb (usernamePattern username) then inr usernameNotAlphanumeric
      else inl (mkProfile (toLowerCase username) password now)
  end.

(** The rest of the registration branch: [await addDoc] on the collection
    as it is by then, and [onLoginSuccess]. *)
Definition complete (pos : nat) (r : Profile + string) (profiles : list Profile)
    : list Profile * Result :=
  match r with
  | inl p => (addDoc pos p profiles, LoginSuccess (AuthPage.username p))
  | inr message => (profiles, Error message)
  end.

(** Two registrations in flight at once.  [getDocs] and [addDoc] are two
    requests with no transaction around them: here both queries are
    answered from [profiles] before either document is added. *)
Definition overlappingRegistrations (toLowerCase : text -> text)
    (username1 password1 : text) (now1 : Z) (pos1 : nat)
    (username2 password2 : text) (now2 : Z) (pos2 : nat)
    (profiles : list Profile) : list Profile * Result * Result :=
  let r1 := registration toLowerCase username1 password1 now1 profiles in
  let r2 := registration toLowerCase username2 password2 now2 profiles in
  let (profiles1, result1) := complete pos1 r1 profiles in
  let (profiles2, result2) := complete pos2 r2 profiles1 in
  (profiles2, result1, result2).

End AuthPage.

(** ** The operations that write invoices *)
Module Ledger.

Inductive Operation : Type :=
| SaveInvoice (invoices : list Invoice.t) (currentInvoice : option (string * Invoice.t))
    (newId : string) (invoiceData : FormData.t)
| RecordPayment (vouchers : list Voucher.t) (newVoucherRef : string) (now : Z)
    (voucherData : VoucherData.t).

(** The store after the handler of [op] has run. *)
Definition perform (op : Operation) (store : Db.t) : Db.t :=
  match op with
  | SaveInvoice invoices currentInvoice newId invoiceData =>
      Invoices.db (Invoices.handleSave invoices currentInvoice newId invoiceData store)
  | RecordPayment vouchers newVoucherRef now voucherData =>
      PaymentVouchers.db
        (PaymentVouchers.handleSave vouchers newVoucherRef now voucherData store)
  end.

(** [op] wrote the invoice [inv'] at [id]. *)
Definition wrote (op : Operation) (store : Db.t) (id : string) (inv' : Invoice.t) : Prop :=
  Db.invoices (perform op store) !! id = Some inv' /\
  Db.invoices store !! id <> Some inv'.

End Ledger.

(** ** Definitions in the words of the specification *)
Module Spec.

(** [deriveStatus(total, paidAmount)]: Paid if remaining <= 0;
    PartiallyPaid if 0 < paidAmount; else Pending. *)
Definition deriveStatus (total paidAmount : number) : string :=
  if leb (sub total paidAmount) (lit 0) then Paid
  else if ltb (lit 0) paidAmount then PartiallyPaid
  else Pending.

(** The sum over [l] of [f], the terms added one after the other from the
    first on: the sum of [l ++ [x]] is the sum of [l] plus [f x].  Each
    addition is rounded, so the order is part of the meaning. *)
Definition sumOver {A} (f : A -> number) (l : list A) : number :=
  foldr (fun x s => add s (f x)) (lit 0) (rev l).

(** Line subtotal = quantity x price. *)
Definition lineSubtotal (item : LineItem.t) : number :=
  mul (LineItem.quantity item) (LineItem.price item).

(** computeTotal(items) = sum over items of quantity * price. *)
Definition computeTotal (items : list LineItem.t) : number :=
  sumOver lineSubtotal items.

(** The elements of [l], each at its first occurrence only. *)
Fixpoint firstOccurrences {A} `{EqDecision A} (l : list A) : list A :=
  match l with
  | [] => []
  | x :: l' => x :: filter (fun y => y <> x) (firstOccurrences l')
  end.

(** Steps 2 and 3 of recordPayment: newPaid = paidAmount + amount,
    newRemaining = total - newPaid, newStatus Paid if newRemaining <= 0,
    else PartiallyPaid. *)
Definition paymentUpdate (total paidAmount amount : number) : Tx.Patch :=
  let newPaid := add paidAmount amount in
  let newRemaining := sub total newPaid in
  Tx.mkPatch newPaid newRemaining
    (if leb newRemaining (lit 0) then Paid else PartiallyPaid).

(** [a] may stand before [b] in a list ordered by date, latest first. *)
Definition latestFirst (getTime : string -> Z) (a b : Invoice.t) : Prop :=
  (getTime (Invoice.date b) <= getTime (Invoice.date a))%Z.

(** The sales of the month [k]: the sum of [total] over the invoices of
    [invs] whose month is [k], in the order of [invs]. *)
Definition monthSales (monthName : Invoice.t -> option string)
    (k : option string) (invs : list Invoice.t) : number :=
  sumOver (fun inv => ToNumber (Invoice.total inv))
    (filter (fun inv => monthName inv = k) invs).

(** monthlySales: the invoices of [invs] grouped by month, one bucket per
    month with the sum of [total], the months in the order of their first
    occurrence in [ordered]. *)
Definition monthlySales (monthName : Invoice.t -> option string)
    (ordered invs : list Invoice.t) : list Dashboard.Bucket :=
  map (fun k => Dashboard.mkBucket k (monthSales monthName k invs))
    (firstOccurrences (map monthName ordered)).

(** The invariant of an invoice at rest: remainingAmount == total - paidAmount. *)
Definition atRest (inv : Invoice.t) : Prop :=
  Invoice.remainingAmount inv =
  VNum (sub (ToNumber (Invoice.total inv)) (ToNumber (Invoice.paidAmount inv))).

End Spec.

(** ** Sample data for evaluating the handlers *)
Module Sample.

Definition invoice (date : string) (total paid : Q) (status : string) : Invoice.t :=
  Invoice.mk "c1" "Amal" date None (VNum (lit total)) (VNum (lit paid))
    (VNum (sub (lit total) (lit paid))) 1001 status.

Definition voucherData (invoiceId : string) (amount : Q) : VoucherData.t :=
  VoucherData.mk "c1" invoiceId (lit amount) "2024-03-05" "Amal" (Some 1001%Z).

Definition item (quantity price : Q) : LineItem.t :=
  LineItem.mk "s1" "Design" (lit quantity) (lit price).

(** An invoice with the number [n], and a voucher with the number [n]. *)
Definition numberedInvoice (n : Z) : Invoice.t :=
  Invoice.mk "c1" "Amal" "2024-03-01" None (VNum (lit 100)) (VNum (lit 0))
    (VNum (lit 100)) n Pending.

Definition numberedVoucher (n : Z) : Voucher.t :=
  Voucher.mk (voucherData "i1" 40) n 0.

(** A paid invoice of one line, 1 x 100. *)
Definition paidInvoice : Invoice.t :=
  Invoice.mk "c1" "Amal" "2024-03-01" (Some [item 1 100]) (VNum (lit 100))
    (VNum (lit 100)) (VNum (lit 0)) 1001 Paid.

Definition customers : list InvoiceForm.Customer :=
  [InvoiceForm.mkCustomer "c1" "Amal"].

Definition services : list InvoiceForm.Service :=
  [InvoiceForm.mkService "s1" "Design" (lit 100)].

(** One invoice [i1] of total 100, nothing paid, no voucher. *)
Definition store : Db.t :=
  Db.mk {[ "i1" := invoice "2024-03-01" 100 0 Pending ]} ∅.

(** [toLowerCase] on texts of ASCII units. *)
Definition asciiLower (t : AuthPage.text) : AuthPage.text :=
  map (fun c => if ((65 <=? c) && (c <=? 90))%N then (c + 32)%N else c) t.

(** The code units of "Amal1", of "amal1" and of "secret1". *)
Definition userAmal1 : AuthPage.text := [65; 109; 97; 108; 49]%N.
Definition useramal1 : AuthPage.text := [97; 109; 97; 108; 49]%N.
Definition secret1 : AuthPage.text := [115; 101; 99; 114; 101; 116; 49]%N.

End Sample.

(** * Properties *)

(** ** Numbers *)

Lemma lit_0 : lit 0 = Zero.
Proof. reflexivity. Qed.

Lemma add_lit0_l (n : number) : add (lit 0) n = n.
Proof. rewrite lit_0. destruct n; reflexivity. Qed.

Lemma add_lit0_r (n : number) : add n (lit 0) = n.
Proof. rewrite lit_0. destruct n; reflexivity. Qed.

Lemma sub_lit0_r (n : number) : sub n (lit 0) = n.
Proof. rewrite lit_0. destruct n; reflexivity. Qed.

(** [n || 0] is [n] again when [n] is a number other than [NaN]. *)
Lemma or_zero (n : number) :
  n <> NaN -> ToNumber (or (VNum n) (VNum (lit 0))) = n.
Proof.
  intros Hn. destruct n; [contradiction|reflexivity..].
Qed.

(** A falsy value counts as [0]. *)
Lemma or_zero_falsy (v : value) :
  truthy v = false -> or v (VNum (lit 0)) = VNum (lit 0).
Proof. unfold or. intros ->. reflexivity. Qed.

(** Rounding is visible in the model: 10.1 + 90.1 is the double below
    100.2, and 0.1 + 0.2 + 0.3 is the double above 0.6. *)
Lemma rounded_sums :
  add (lit 10.1) (lit 90.1) = Finite false 7050948166601932 (-46) /\
  lit 100.2 = Finite false 7050948166601933 (-46) /\
  add (add (lit 0.1) (lit 0.2)) (lit 0.3) = Finite false 5404319552844596 (-53) /\
  lit 0.6 = Finite false 5404319552844595 (-53) /\
  mul (lit 3) (lit 0.1) = Finite false 5404319552844596 (-54) /\
  lit 0.3 = Finite false 5404319552844595 (-54).
Proof. vm_compute. repeat split. Qed.

(** ** The payment transaction *)

Section Payment.
Import PaymentVouchers.

Variables (vouchersState : list Voucher.t) (newVoucherRef : string) (now : Z).
Variables (voucherData : VoucherData.t) (store : Db.t).

Local Abbreviation invoiceRef := (VoucherData.invoiceId voucherData).
Local Abbreviation amount := (VoucherData.amount voucherData).
Local Abbreviation out := (handleSave vouchersState newVoucherRef now voucherData store).
Local Abbreviation newVoucher :=
  (Voucher.mk voucherData (newVoucherNumber vouchersState) now).
Local Abbreviation paidOrZero inv := (ToNumber (or (Invoice.paidAmount inv) (VNum (lit 0)))).

(** One run of the callback on a store that has the invoice, and on one
    that does not. *)
Lemma transactionBody_found (ref : string) (time : Z) (db : Db.t) (inv : Invoice.t) :
  Db.invoices db !! invoiceRef = Some inv ->
  transactionBody vouchersState ref time voucherData db (Tx.mkLog [] []) =
  inr (tt,
       Tx.mkLog [invoiceRef]
         [Tx.Update invoiceRef
            (Spec.paymentUpdate (ToNumber (Invoice.total inv)) (paidOrZero inv) amount);
          Tx.SetVoucher ref (Voucher.mk voucherData (newVoucherNumber vouchersState) time)]).
Proof.
  intros Hinv. unfold transactionBody, mbind, Tx_bind, Tx.bind, Tx.get.
  rewrite Hinv. reflexivity.
Qed.

Lemma transactionBody_missing (ref : string) (time : Z) (db : Db.t) :
  Db.invoices db !! invoiceRef = None ->
  transactionBody vouchersState ref time voucherData db (Tx.mkLog [] []) =
  inl (Tx.Thrown "Invoice does not exist!").
Proof.
  intros Hinv. unfold transactionBody, mbind, Tx_bind, Tx.bind, Tx.get.
  rewrite Hinv. reflexivity.
Qed.

Lemma handleSave_found (inv : Invoice.t) :
  Db.invoices store !! invoiceRef = Some inv ->
  out = mkOutcome
          (Db.mk (<[invoiceRef := Tx.patch (Spec.paymentUpdate (ToNumber (Invoice.total inv)) (paidOrZero inv) amount) inv]> (Db.invoices store))
                 (<[newVoucherRef := newVoucher]> (Db.vouchers store)))
          false None.
Proof.
  intros Hinv. unfold handleSave, Tx.runTransaction.
  rewrite (transactionBody_found _ _ _ inv Hinv).
  cbn [Tx.writes Tx.commit Tx.apply Db.invoices Db.vouchers].
  rewrite Hinv. reflexivity.
Qed.

Lemma handleSave_missing :
  Db.invoices store !! invoiceRef = None ->
  out = mkOutcome store true (Some (Tx.Thrown "Invoice does not exist!")).
Proof.
  intros Hinv. unfold handleSave, Tx.runTransaction.
  rewrite (transactionBody_missing _ _ _ Hinv). reflexivity.
Qed.

(** The invoice the transaction leaves behind, when it found [inv]. *)
Local Abbreviation paidInvoice inv :=
  (Tx.patch
     (Spec.paymentUpdate (ToNumber (Invoice.total inv)) (paidOrZero inv) amount) inv).

(** With no other client writing and the commit accepted, the general
    transaction is [handleSave]. *)
Lemma handleSaveAmid_undisturbed :
  handleSaveAmid vouchersState [mkRun newVoucherRef now (Tx.mkAttempt id true)]
    voucherData store = out.
Proof.
  unfold handleSaveAmid, handleSave, Tx.runTransaction. cbn [map Tx.runTransactionAmid].
  cbn [run_ref run_now run_attempt].
  destruct (Db.invoices store !! invoiceRef) as [inv|] eqn:Hinv.
  - rewrite (transactionBody_found _ _ _ inv Hinv).
    cbn [Tx.reads Tx.writes Tx.others Tx.accepted Tx.unchanged forallb id andb].
    rewrite bool_decide_eq_true_2 by reflexivity. reflexivity.
  - rewrite (transactionBody_missing _ _ _ Hinv). reflexivity.
Qed.





(** C6.  When the target invoice does not exist, recordPayment fails with
    the error "Invoice does not exist!", the transaction is aborted and the
    store is untouched: no voucher is created and no invoice is changed. *)
Theorem recordPayment_missing_invoice :
  Db.invoices store !! invoiceRef = None ->
  failed out = Some (Tx.Thrown "Invoice does not exist!") /\
  isModalOpen out = true /\
  db out = store.
Proof. intros Hinv. rewrite (handleSave_missing Hinv). auto. Qed.

(** C10.  When the stored paidAmount of the invoice is absent, null or
    otherwise falsy, the prior paid amount counts as 0: the new paidAmount
    is exactly the voucher amount and the new remainingAmount is the total
    minus the voucher amount. *)
Theorem recordPayment_falsy_paidAmount (inv : Invoice.t) :
  Db.invoices store !! invoiceRef = Some inv ->
  truthy (Invoice.paidAmount inv) = false ->
  exists inv' : Invoice.t,
    Db.invoices (db out) !! invoiceRef = Some inv' /\
    Invoice.paidAmount inv' = VNum amount /\
    Invoice.remainingAmount inv' =
      VNum (sub (ToNumber (Invoice.total inv)) amount).
Proof.
  intros Hinv Hfalsy. rewrite (handleSave_found inv Hinv).
  cbn [db Db.invoices]. rewrite lookup_insert_eq.
  eexists. split; [reflexivity|].
  unfold Tx.patch, Spec.paymentUpdate.
  cbn [Invoice.paidAmount Invoice.remainingAmount Tx.paidAmount Tx.remainingAmount].
  rewrite (or_zero_falsy _ Hfalsy). cbn [ToNumber]. rewrite add_lit0_l. auto.
Qed.

End Payment.

(** *** The payment theorems on the sample store *)


(** Another client's payment of 30 gets through between the read and the
    commit of the first run: the commit is refused, the second run reads
    the invoice again and its update and voucher are committed on top of
    the other payment.  The voucher id of the refused run is not in the
    store. *)
Lemma recordPayment_retried_after_conflict :
  let other := fun db =>
    PaymentVouchers.db
      (PaymentVouchers.handleSave [] "w1" 0 (Sample.voucherData "i1" 30) db) in
  let runs :=
    [PaymentVouchers.mkRun "v1" 1 (Tx.mkAttempt other true);
     PaymentVouchers.mkRun "v2" 2 (Tx.mkAttempt id true)] in
  let vd := Sample.voucherData "i1" 40 in
  let out := PaymentVouchers.handleSaveAmid [] runs vd Sample.store in
  PaymentVouchers.failed out = None /\
  Db.invoices (PaymentVouchers.db out) !! "i1" =
    Some (Invoice.mk "c1" "Amal" "2024-03-01" None (VNum (lit 100))
            (VNum (lit 70)) (VNum (lit 30)) 1001 PartiallyPaid) /\
  Db.vouchers (PaymentVouchers.db out) !! "v2" = Some (Voucher.mk vd 1 2) /\
  Db.vouchers (PaymentVouchers.db out) !! "v1" = None.
Proof. vm_compute. repeat split. Qed.

(** With no attempt left after the refused commit the transaction fails,
    and the store holds the other client's payment only: neither the
    invoice update nor the voucher of the failed payment is in it. *)
Lemma recordPayment_fails_without_partial_write :
  let other := fun db =>
    PaymentVouchers.db
      (PaymentVouchers.handleSave [] "w1" 0 (Sample.voucherData "i1" 30) db) in
  let runs := [PaymentVouchers.mkRun "v1" 1 (Tx.mkAttempt other true)] in
  let vd := Sample.voucherData "i1" 40 in
  let out := PaymentVouchers.handleSaveAmid [] runs vd Sample.store in
  PaymentVouchers.failed out = Some Tx.CommitFailed /\
  PaymentVouchers.isModalOpen out = true /\
  PaymentVouchers.db out = other Sample.store /\
  Db.invoices (PaymentVouchers.db out) !! "i1" =
    Some (Invoice.mk "c1" "Amal" "2024-03-01" None (VNum (lit 100))
            (VNum (lit 30)) (VNum (lit 70)) 1001 PartiallyPaid) /\
  Db.vouchers (PaymentVouchers.db out) !! "v1" = None.
Proof. vm_compute. repeat split. Qed.





Lemma recordPayment_missing_invoice_witness :
  let vd := Sample.voucherData "gone" 40 in
  let out := PaymentVouchers.handleSave [] "v1" 0 vd Sample.store in
  PaymentVouchers.failed out = Some (Tx.Thrown "Invoice does not exist!") /\
  PaymentVouchers.isModalOpen out = true /\
  PaymentVouchers.db out = Sample.store.
Proof.
  intros vd out.
  apply (recordPayment_missing_invoice [] "v1" 0 vd Sample.store).
  vm_compute; reflexivity.
Defined.

Lemma recordPayment_falsy_paidAmount_witness :
  let inv := Invoice.mk "c1" "Amal" "2024-03-01" None (VNum (lit 100))
               VUndefined VUndefined 1001 Pending in
  let store := Db.mk {[ "i1" := inv ]} ∅ in
  let vd := Sample.voucherData "i1" 40 in
  let out := PaymentVouchers.handleSave [] "v1" 0 vd store in
  exists inv' : Invoice.t,
    Db.invoices (PaymentVouchers.db out) !! "i1" = Some inv' /\
    Invoice.paidAmount inv' = VNum (lit 40) /\
    Invoice.remainingAmount inv' = VNum (sub (lit 100) (lit 40)).
Proof.
  intros inv store vd out.
  apply (recordPayment_falsy_paidAmount [] "v1" 0 vd store inv);
    vm_compute; reflexivity.
Defined.

(** ** The number allocator *)

Lemma Math_max_greatest (ns : list Z) : forall n : Z,
  Math_max n ns ∈ n :: ns /\ forall x : Z, x ∈ n :: ns -> (x <= Math_max n ns)%Z.
Proof.
  unfold Math_max. induction ns as [|k ns IH]; intros n; cbn [fold_left].
  - split; [left|]. intros x Hx. apply list_elem_of_singleton in Hx. lia.
  - destruct (IH (Z.max n k)) as [Hin Hle]. split.
    + apply elem_of_cons in Hin as [Heq|Hin].
      * rewrite Heq. destruct (Z.max_spec n k) as [[_ ->]|[_ ->]].
        -- right; left.
        -- left.
      * right; right. exact Hin.
    + intros x Hx. apply elem_of_cons in Hx as [->|Hx].
      * specialize (Hle (Z.max n k)). etrans; [apply Z.le_max_l|].
        apply Hle. left.
      * apply elem_of_cons in Hx as [->|Hx].
        -- etrans; [apply Z.le_max_r|]. apply Hle. left.
        -- apply Hle. right. exact Hx.
Qed.

(** C7.  The allocator returns the floor on an empty collection (1001 for
    invoices, 1 for vouchers) and otherwise the greatest number of the
    collection plus one; on the numbers 1001 and 1005 it returns 1006. *)
Theorem nextNumber_floor_or_max_plus_one :
  Invoices.newInvoiceNumber [] = 1001%Z /\
  PaymentVouchers.newVoucherNumber [] = 1%Z /\
  (forall (inv : Invoice.t) (invs : list Invoice.t),
     exists m : Z,
       m ∈ map Invoice.invoiceNumber (inv :: invs) /\
       (forall n : Z, n ∈ map Invoice.invoiceNumber (inv :: invs) -> (n <= m)%Z) /\
       Invoices.newInvoiceNumber (inv :: invs) = (m + 1)%Z) /\
  (forall (v : Voucher.t) (vs : list Voucher.t),
     exists m : Z,
       m ∈ map Voucher.voucherNumber (v :: vs) /\
       (forall n : Z, n ∈ map Voucher.voucherNumber (v :: vs) -> (n <= m)%Z) /\
       PaymentVouchers.newVoucherNumber (v :: vs) = (m + 1)%Z) /\
  Invoices.newInvoiceNumber
    [Sample.numberedInvoice 1001; Sample.numberedInvoice 1005] = 1006%Z /\
  PaymentVouchers.newVoucherNumber
    [Sample.numberedVoucher 1001; Sample.numberedVoucher 1005] = 1006%Z.
Proof.
  split; [reflexivity|]. split; [reflexivity|]. split; [|split].
  - intros inv invs. unfold Invoices.newInvoiceNumber. cbn [map].
    destruct (Math_max_greatest (map Invoice.invoiceNumber invs)
                (Invoice.invoiceNumber inv)) as [Hin Hle].
    eexists. split; [exact Hin|]. split; [exact Hle|reflexivity].
  - intros v vs. unfold PaymentVouchers.newVoucherNumber. cbn [map].
    destruct (Math_max_greatest (map Voucher.voucherNumber vs)
                (Voucher.voucherNumber v)) as [Hin Hle].
    eexists. split; [exact Hin|]. split; [exact Hle|reflexivity].
  - split; reflexivity.
Qed.

(** ** Saving an invoice *)

Section InvoiceSave.
Import Invoices.

Variables (invoicesState : list Invoice.t) (newId : string).
Variables (invoiceData : FormData.t) (store : Db.t).

Local Abbreviation data := (dataToSave invoiceData).

Lemma handleSave_create :
  handleSave invoicesState None newId invoiceData store =
  mkOutcome
    (Db.mk (<[newId := newDoc data (newInvoiceNumber invoicesState)]> (Db.invoices store))
           (Db.vouchers store))
    false false.
Proof. reflexivity. Qed.

(** Whatever [handleSave] writes is the form's data with [total],
    [paidAmount] and [remainingAmount] recomputed. *)
Lemma handleSave_written (currentInvoice : option (string * Invoice.t))
    (id : string) (inv' : Invoice.t) :
  Ledger.wrote (Ledger.SaveInvoice invoicesState currentInvoice newId invoiceData)
    store id inv' ->
  Invoice.items inv' = Some (FormData.items invoiceData) /\
  Invoice.total inv' = VNum (ToNumber (FormData.total invoiceData)) /\
  Invoice.paidAmount inv' =
    or (VNum (ToNumber (FormData.paidAmount invoiceData))) (VNum (lit 0)) /\
  Invoice.remainingAmount inv' =
    VNum (sub (ToNumber (Invoice.total inv')) (ToNumber (Invoice.paidAmount inv'))).
Proof.
  unfold Ledger.wrote, Ledger.perform, handleSave. intros [Hafter Hbefore].
  destruct currentInvoice as [[cid cur]|].
  - destruct (Db.invoices store !! cid) as [old|] eqn:Hold; cbn in Hafter.
    + destruct (decide (cid = id)) as [->|Hne].
      * rewrite lookup_insert_eq in Hafter. injection Hafter as <-.
        cbn. auto.
      * rewrite lookup_insert_ne in Hafter by assumption. contradiction.
    + contradiction.
  - cbn in Hafter. destruct (decide (newId = id)) as [->|Hne].
    + rewrite lookup_insert_eq in Hafter. injection Hafter as <-. cbn. auto.
    + rewrite lookup_insert_ne in Hafter by assumption. contradiction.
Qed.

End InvoiceSave.

(** C2.  Whenever one operation (saving a new or an edited invoice, or
    recording a payment) writes an invoice, the invoice it leaves at rest
    satisfies remainingAmount = total - paidAmount. *)
Theorem written_invoice_at_rest (op : Ledger.Operation) (store : Db.t)
    (id : string) (inv' : Invoice.t) :
  Ledger.wrote op store id inv' -> Spec.atRest inv'.
Proof.
  destruct op as [invs cur newId fd | vs ref now vd]; intros Hw.
  - apply handleSave_written in Hw. apply Hw.
  - destruct Hw as [Hafter Hbefore]. unfold Ledger.perform in Hafter.
    destruct (Db.invoices store !! VoucherData.invoiceId vd) as [inv|] eqn:Hinv.
    + rewrite (handleSave_found vs ref now vd store inv Hinv) in Hafter.
      cbn in Hafter.
      destruct (decide (VoucherData.invoiceId vd = id)) as [Heq|Hne].
      * rewrite <- Heq, lookup_insert_eq in Hafter. injection Hafter as <-.
        reflexivity.
      * rewrite lookup_insert_ne in Hafter by assumption. contradiction.
    + rewrite (handleSave_missing vs ref now vd store Hinv) in Hafter.
      contradiction.
Qed.

Lemma written_invoice_at_rest_witness :
  let op := Ledger.RecordPayment [] "v1" 0 (Sample.voucherData "i1" 40) in
  let inv' := Invoice.mk "c1" "Amal" "2024-03-01" None (VNum (lit 100))
                (VNum (lit 40)) (VNum (lit 60)) 1001 PartiallyPaid in
  Ledger.wrote op Sample.store "i1" inv' /\ Spec.atRest inv'.
Proof.
  intros op inv'.
  assert (Hw : Ledger.wrote op Sample.store "i1" inv')
    by (split; [vm_compute; reflexivity | vm_compute; discriminate]).
  split; [exact Hw|]. exact (written_invoice_at_rest op Sample.store "i1" inv' Hw).
Defined.

(** C4, as stated, fails.  A new invoice saved with a total of 0 is persisted
    as Pending although its remaining amount is 0; a paid invoice edited from
    a total of 100 to 200 keeps the status Paid although 100 remain. *)
Lemma saved_status_is_not_derived :
  (let formData :=
     InvoiceForm.session "2024-03-01" None
       [InvoiceForm.CustomerChange Sample.customers "c1"] in
   let out := Invoices.handleSave [] None "i2" formData (Db.mk ∅ ∅) in
   Db.invoices (Invoices.db out) !! "i2" =
     Some (Invoice.mk "c1" "Amal" "2024-03-01" (Some [InvoiceForm.blankItem])
             (VNum (lit 0)) (VNum (lit 0)) (VNum (lit 0)) 1001 Pending) /\
   Spec.deriveStatus (lit 0) (lit 0) = Paid /\
   Pending <> Paid) /\
  (let current := ("i1", Sample.paidInvoice) in
   let formData :=
     InvoiceForm.session "2024-03-09" (Some current)
       [InvoiceForm.AddItem; InvoiceForm.ServiceChange Sample.services 1 "s1"] in
   let out :=
     Invoices.handleSave [Sample.paidInvoice] (Some current) "i2" formData
       (Db.mk {[ "i1" := Sample.paidInvoice ]} ∅) in
   Db.invoices (Invoices.db out) !! "i1" =
     Some (Invoice.mk "c1" "Amal" "2024-03-01"
             (Some [Sample.item 1 100; Sample.item 1 100])
             (VNum (lit 200)) (VNum (lit 100)) (VNum (lit 100)) 1001 Paid) /\
   Spec.deriveStatus (lit 200) (lit 100) = PartiallyPaid /\
   Paid <> PartiallyPaid).
Proof. vm_compute. repeat split; discriminate. Qed.

(** C4 (amended).  Every save of an invoice through the form persists
    total = Number(total), paidAmount = Number(paidAmount) || 0 and
    remainingAmount = total - paidAmount together; a created invoice is
    always persisted as Pending; recordPayment persists Paid if the new
    remainingAmount <= 0 and PartiallyPaid otherwise. *)
Theorem saved_status_and_amounts :
  (forall (invs : list Invoice.t) (cur : option (string * Invoice.t)) (newId : string)
          (formData : FormData.t) (store : Db.t) (id : string) (inv' : Invoice.t),
     Ledger.wrote (Ledger.SaveInvoice invs cur newId formData) store id inv' ->
     Invoice.total inv' = VNum (ToNumber (FormData.total formData)) /\
     Invoice.paidAmount inv' =
       or (VNum (ToNumber (FormData.paidAmount formData))) (VNum (lit 0)) /\
     Invoice.remainingAmount inv' =
       VNum (sub (ToNumber (Invoice.total inv')) (ToNumber (Invoice.paidAmount inv')))) /\
  (forall (invs : list Invoice.t) (newId : string) (formData : FormData.t) (store : Db.t),
     exists inv' : Invoice.t,
       Db.invoices (Invoices.db (Invoices.handleSave invs None newId formData store))
         !! newId = Some inv' /\
       Invoice.status inv' = Pending) /\
  (forall (vs : list Voucher.t) (ref : string) (now : Z) (vd : VoucherData.t)
          (store : Db.t) (inv : Invoice.t),
     Db.invoices store !! VoucherData.invoiceId vd = Some inv ->
     exists inv' : Invoice.t,
       Db.invoices (PaymentVouchers.db (PaymentVouchers.handleSave vs ref now vd store))
         !! VoucherData.invoiceId vd = Some inv' /\
       Invoice.status inv' =
         if leb (ToNumber (Invoice.remainingAmount inv')) (lit 0)
         then Paid else PartiallyPaid).
Proof.
  split; [|split].
  - intros invs cur newId formData store id inv' Hw.
    apply handleSave_written in Hw. tauto.
  - intros invs newId formData store. rewrite handleSave_create.
    cbn [Invoices.db Db.invoices]. rewrite lookup_insert_eq.
    eexists. split; reflexivity.
  - intros vs ref now vd store inv Hinv.
    rewrite (handleSave_found vs ref now vd store inv Hinv).
    cbn [PaymentVouchers.db Db.invoices]. rewrite lookup_insert_eq.
    eexists. split; reflexivity.
Qed.

Lemma saved_status_and_amounts_witness :
  let vd := Sample.voucherData "i1" 100 in
  exists inv' : Invoice.t,
    Db.invoices
      (PaymentVouchers.db (PaymentVouchers.handleSave [] "v1" 0 vd Sample.store))
      !! "i1" = Some inv' /\
    Invoice.status inv' =
      if leb (ToNumber (Invoice.remainingAmount inv')) (lit 0)
      then Paid else PartiallyPaid.
Proof.
  intros vd.
  apply (proj2 (proj2 saved_status_and_amounts) [] "v1" 0%Z vd Sample.store
           (Sample.invoice "2024-03-01" 100 0 Pending)).
  vm_compute; reflexivity.
Defined.


(** ** The invoice total *)

Lemma sumOver_fold {A} (f : A -> number) (l : list A) :
  Spec.sumOver f l = fold_left (fun sum x => add sum (f x)) l (lit 0).
Proof.
  unfold Spec.sumOver.
  exact (fold_left_rev_right (fun x s => add s (f x)) l (lit 0)).
Qed.

Lemma sumOver_snoc {A} (f : A -> number) (l : list A) (x : A) :
  Spec.sumOver f (l ++ [x]) = add (Spec.sumOver f l) (f x).
Proof. unfold Spec.sumOver. rewrite rev_unit. reflexivity. Qed.

Lemma calculateTotal_computeTotal (items : list LineItem.t) :
  InvoiceForm.calculateTotal items = Spec.computeTotal items.
Proof. symmetry. exact (sumOver_fold Spec.lineSubtotal items). Qed.

(** After every event the form's total is the total of its rows. *)
Lemma session_total (today : string) (invoice : option (string * Invoice.t))
    (es : list InvoiceForm.Event) :
  FormData.total (InvoiceForm.session today invoice es) =
  VNum (InvoiceForm.calculateTotal (FormData.items (InvoiceForm.session today invoice es))).
Proof.
  unfold InvoiceForm.session.
  destruct es as [|e es _] using rev_ind; [reflexivity|].
  rewrite fold_left_app. reflexivity.
Qed.

(** C8.  calculateTotal is the sum over the items of quantity * price: 0
    for no item, and with one more item the sum so far plus that item's
    quantity * price (the products are added in the order of the rows,
    each operation rounded as a double).  It is 600 on the items 2 x 150
    and 1 x 300, and an invoice saved from the form is persisted with its
    items and with that sum of them as its total; a payment changes
    neither. *)
Theorem computeTotal_is_sum_of_line_subtotals :
  (forall items : list LineItem.t,
     InvoiceForm.calculateTotal items = Spec.computeTotal items) /\
  Spec.computeTotal [] = lit 0 /\
  (forall (items : list LineItem.t) (item : LineItem.t),
     Spec.computeTotal (items ++ [item]) =
     add (Spec.computeTotal items) (mul (LineItem.quantity item) (LineItem.price item))) /\
  InvoiceForm.calculateTotal [Sample.item 2 150; Sample.item 1 300] = lit 600 /\
  (forall (today : string) (invoice : option (string * Invoice.t))
          (es : list InvoiceForm.Event) (invs : list Invoice.t)
          (cur : option (string * Invoice.t)) (newId : string) (store : Db.t)
          (id : string) (inv' : Invoice.t),
     let formData := InvoiceForm.session today invoice es in
     Ledger.wrote (Ledger.SaveInvoice invs cur newId formData) store id inv' ->
     Invoice.items inv' = Some (FormData.items formData) /\
     Invoice.total inv' = VNum (Spec.computeTotal (FormData.items formData))) /\
  (forall (vs : list Voucher.t) (ref : string) (now : Z) (vd : VoucherData.t)
          (store : Db.t) (id : string) (inv' : Invoice.t),
     Ledger.wrote (Ledger.RecordPayment vs ref now vd) store id inv' ->
     exists inv : Invoice.t,
       Db.invoices store !! id = Some inv /\
       Invoice.items inv' = Invoice.items inv /\
       Invoice.total inv' = Invoice.total inv).
Proof.
  split; [exact calculateTotal_computeTotal|]. split; [reflexivity|].
  split; [intros items item; apply (sumOver_snoc Spec.lineSubtotal)|].
  split; [vm_compute; reflexivity|].
  split.
  - intros today invoice es invs cur newId store id inv' formData Hw.
    apply handleSave_written in Hw. destruct Hw as (Hitems & Htotal & _).
    split; [exact Hitems|]. rewrite Htotal. subst formData.
    rewrite session_total, calculateTotal_computeTotal. reflexivity.
  - intros vs ref now vd store id inv' [Hafter Hbefore].
    unfold Ledger.perform in Hafter.
    destruct (Db.invoices store !! VoucherData.invoiceId vd) as [inv|] eqn:Hinv.
    + rewrite (handleSave_found vs ref now vd store inv Hinv) in Hafter.
      cbn in Hafter.
      destruct (decide (VoucherData.invoiceId vd = id)) as [Heq|Hne].
      * rewrite <- Heq, lookup_insert_eq in Hafter. injection Hafter as <-.
        exists inv. rewrite <- Heq. auto.
      * rewrite lookup_insert_ne in Hafter by assumption. contradiction.
    + rewrite (handleSave_missing vs ref now vd store Hinv) in Hafter.
      contradiction.
Qed.

Lemma computeTotal_is_sum_of_line_subtotals_witness :
  let formData :=
    InvoiceForm.session "2024-03-09" None
      [InvoiceForm.CustomerChange Sample.customers "c1";
       InvoiceForm.ServiceChange Sample.services 0 "s1";
       InvoiceForm.QuantityChange 0 (lit 3)] in
  let op := Ledger.SaveInvoice [] None "i2" formData in
  let inv' :=
    Invoice.mk "c1" "Amal" "2024-03-09" (Some [Sample.item 3 100])
      (VNum (lit 300)) (VNum (lit 0)) (VNum (lit 300)) 1001 Pending in
  Ledger.wrote op Sample.store "i2" inv' /\
  Invoice.items inv' = Some (FormData.items formData) /\
  Invoice.total inv' = VNum (Spec.computeTotal (FormData.items formData)).
Proof.
  intros formData op inv'.
  assert (Hw : Ledger.wrote op Sample.store "i2" inv')
    by (split; [vm_compute; reflexivity | vm_compute; discriminate]).
  split; [exact Hw|].
  exact (proj1 (proj2 (proj2 (proj2 (proj2 computeTotal_is_sum_of_line_subtotals))))
           "2024-03-09" None _ [] None "i2" Sample.store "i2" inv' Hw).
Defined.

(** ** The host's calendar *)









(** ** The dashboard rollup *)

Section Rollup.
Import Dashboard.

Variables (getTime : string -> Z) (getMonth : string -> nat).

Local Abbreviation monthName := (Dashboard.monthName getMonth).
Local Abbreviation sort := (Dashboard.sort getTime).
Local Abbreviation monthSales := (Spec.monthSales monthName).
Local Abbreviation invTotal := (fun inv : Invoice.t => ToNumber (Invoice.total inv)).
Local Abbreviation sumFrom a l :=
  (fold_left (fun sum (inv : Invoice.t) => add sum (ToNumber (Invoice.total inv))) l a).
Local Abbreviation ofMonth k := (fun inv : Invoice.t => monthName inv = k).

Lemma insert_Permutation (a : Invoice.t) (l : list Invoice.t) :
  insert getTime a l ≡ₚ a :: l.
Proof.
  induction l as [|b l IH]; cbn; [reflexivity|].
  destruct (getTime (Invoice.date b) <=? getTime (Invoice.date a))%Z.
  - reflexivity.
  - rewrite IH. apply Permutation_swap.
Qed.

Lemma sort_Permutation (l : list Invoice.t) : sort l ≡ₚ l.
Proof.
  induction l as [|a l IH]; cbn; [reflexivity|].
  rewrite insert_Permutation, IH. reflexivity.
Qed.

Lemma monthSales_fold (k : option string) (l : list Invoice.t) :
  monthSales k l = sumFrom (lit 0) (filter (ofMonth k) l).
Proof. unfold Spec.monthSales. apply sumOver_fold. Qed.

(** The running sum of a month over [x :: l] takes [x] in first, when [x]
    is of that month. *)
Lemma sumFrom_cons (a : number) (k : option string) (x : Invoice.t) (l : list Invoice.t) :
  sumFrom a (filter (ofMonth k) (x :: l)) =
  if decide (monthName x = k)
  then sumFrom (add a (invTotal x)) (filter (ofMonth k) l)
  else sumFrom a (filter (ofMonth k) l).
Proof.
  destruct (decide (monthName x = k)) as [Hk|Hk].
  - rewrite filter_cons_True by exact Hk. reflexivity.
  - rewrite filter_cons_False by exact Hk. reflexivity.
Qed.

Local Abbreviation credit x :=
  (fun b : Bucket =>
     if bool_decide (name b = monthName x)
     then mkBucket (name b) (add (sales b) (invTotal x))
     else b).

Lemma credit_name (x : Invoice.t) (acc : list Bucket) :
  map name (map (credit x) acc) = map name acc.
Proof.
  rewrite map_map. apply map_ext. intros [k s]. cbn.
  destruct (bool_decide (k = monthName x)); reflexivity.
Qed.

Lemma addSale_known (x : Invoice.t) (acc : list Bucket) :
  monthName x ∈ map name acc ->
  addSale getMonth acc x = map (credit x) acc.
Proof. intros Hin. unfold addSale. rewrite bool_decide_eq_true_2 by exact Hin. reflexivity. Qed.

Lemma addSale_new (x : Invoice.t) (acc : list Bucket) :
  monthName x ∉ map name acc ->
  addSale getMonth acc x = acc ++ [mkBucket (monthName x) (invTotal x)].
Proof.
  intros Hnin. unfold addSale. rewrite bool_decide_eq_false_2 by exact Hnin.
  rewrite map_app. cbn [map name sales].
  rewrite bool_decide_eq_true_2 by reflexivity. rewrite add_lit0_l. f_equal.
  erewrite map_ext_in; [apply map_id|]. intros b Hb.
  rewrite bool_decide_eq_false_2; [reflexivity|].
  intros Heq. apply Hnin. rewrite <- Heq. apply list_elem_of_In, in_map, Hb.
Qed.

(** The buckets [acc] after the invoices [l] were added: each bucket of
    [acc] has taken in the invoices of its month, in the order of [l], and
    a bucket was appended for each further month at its first occurrence. *)
Lemma fold_addSale (l : list Invoice.t) : forall acc : list Bucket,
  fold_left (addSale getMonth) l acc =
  map (fun b => mkBucket (name b) (sumFrom (sales b) (filter (ofMonth (name b)) l))) acc ++
  map (fun k => mkBucket k (monthSales k l))
    (filter (fun k => k ∉ map name acc)
       (Spec.firstOccurrences (map monthName l))).
Proof.
  induction l as [|x l IH]; intros acc.
  - cbn. rewrite app_nil_r. symmetry.
    erewrite map_ext; [apply map_id|].
    intros [k s]. reflexivity.
  - cbn [fold_left]. rewrite IH. clear IH.
    cbn [map Spec.firstOccurrences].
    destruct (decide (monthName x ∈ map name acc)) as [Hin|Hnin].
    + rewrite (addSale_known x acc Hin), credit_name. f_equal.
      * rewrite map_map. apply map_ext. intros [k s]. cbn [name sales].
        rewrite sumFrom_cons.
        destruct (decide (k = monthName x)) as [->|Hk].
        -- rewrite bool_decide_eq_true_2 by reflexivity.
           rewrite decide_True by reflexivity. reflexivity.
        -- rewrite bool_decide_eq_false_2 by exact Hk.
           rewrite decide_False by congruence. reflexivity.
      * rewrite filter_cons_False by (intros H; apply H; exact Hin).
        rewrite list_filter_filter.
        rewrite (list_filter_iff
                   (fun k => (k ∉ map name acc) /\ k <> monthName x)
                   (fun k => k ∉ map name acc))
          by (intros k; split; [tauto | intros H; split; [exact H | congruence]]).
        apply map_ext_in. intros k Hk. apply list_elem_of_In, list_elem_of_filter in Hk.
        rewrite !monthSales_fold, sumFrom_cons, decide_False; [reflexivity|].
        intros <-. apply Hk. exact Hin.
    + rewrite (addSale_new x acc Hnin).
      rewrite !map_app. cbn [map name sales].
      rewrite <- app_assoc. f_equal.
      * apply map_ext_in. intros b Hb. rewrite sumFrom_cons, decide_False; [reflexivity|].
        intros Heq. apply Hnin. rewrite Heq. apply list_elem_of_In, in_map, Hb.
      * rewrite filter_cons_True by exact Hnin. cbn [map app].
        rewrite monthSales_fold, sumFrom_cons, decide_True by reflexivity.
        rewrite add_lit0_l. f_equal.
        rewrite list_filter_filter.
        rewrite (list_filter_iff
                   (fun k => (k ∉ map name acc) /\ k <> monthName x)
                   (fun k => k ∉ map name acc ++ [monthName x])).
        -- apply map_ext_in. intros k Hk.
           apply list_elem_of_In, list_elem_of_filter in Hk.
           rewrite !monthSales_fold, sumFrom_cons, decide_False; [reflexivity|].
           intros <-. apply (proj1 Hk). apply elem_of_app. right. left.
        -- intros k. rewrite elem_of_app, list_elem_of_singleton. tauto.
Qed.

Lemma insert_sorted (a : Invoice.t) (l : list Invoice.t) :
  StronglySorted (Spec.latestFirst getTime) l ->
  StronglySorted (Spec.latestFirst getTime) (insert getTime a l).
Proof.
  induction 1 as [|b l Hl IH Hb]; cbn.
  - repeat constructor.
  - destruct (getTime (Invoice.date b) <=? getTime (Invoice.date a))%Z eqn:Hle.
    + apply Z.leb_le in Hle. constructor; [constructor; assumption|].
      constructor; [exact Hle|].
      eapply Forall_impl; [exact Hb|]. unfold Spec.latestFirst. intros c Hc. lia.
    + apply Z.leb_gt in Hle. constructor; [exact IH|].
      rewrite insert_Permutation. constructor; [|exact Hb].
      unfold Spec.latestFirst. lia.
Qed.

Lemma sort_sorted (l : list Invoice.t) :
  StronglySorted (Spec.latestFirst getTime) (sort l).
Proof.
  induction l as [|a l IH]; cbn; [constructor|]. apply insert_sorted, IH.
Qed.

Lemma filter_all {A} (P : A -> Prop) `{forall x, Decision (P x)} (l : list A) :
  (forall x, P x) -> filter P l = l.
Proof.
  intros HP. induction l as [|x l IH]; [reflexivity|].
  rewrite filter_cons_True by apply HP. rewrite IH. reflexivity.
Qed.

(** The series the listener hands to [setSalesData]: the months of the
    sorted list at their first occurrence, each with the sum of its
    invoices in the order of the sorted list. *)
Lemma salesData_monthlySales (allInvoices : list Invoice.t) :
  salesData (onInvoices getTime getMonth allInvoices) =
  Spec.monthlySales monthName (sort allInvoices) (sort allInvoices).
Proof.
  unfold onInvoices. cbn [salesData].
  rewrite fold_addSale. cbn [map app].
  rewrite filter_all by (intros k; apply not_elem_of_nil).
  reflexivity.
Qed.


End Rollup.




(** * Further properties of the handlers *)

(** ** The number allocator *)

Lemma newInvoiceNumber_greatest (invs : list Invoice.t) (m : Z) :
  m ∈ map Invoice.invoiceNumber invs ->
  (forall n : Z, n ∈ map Invoice.invoiceNumber invs -> (n <= m)%Z) ->
  Invoices.newInvoiceNumber invs = (m + 1)%Z.
Proof.
  unfold Invoices.newInvoiceNumber. intros Hin Hmax.
  destruct (map Invoice.invoiceNumber invs) as [|n ns]; [inversion Hin|].
  destruct (Math_max_greatest ns n) as [Hin' Hmax'].
  specialize (Hmax _ Hin'). specialize (Hmax' _ Hin). lia.
Qed.

Lemma invoiceNumber_lt_new (invs : list Invoice.t) (inv : Invoice.t) :
  inv ∈ invs -> (Invoice.invoiceNumber inv < Invoices.newInvoiceNumber invs)%Z.
Proof.
  intros Hin. unfold Invoices.newInvoiceNumber.
  assert (Hn : Invoice.invoiceNumber inv ∈ map Invoice.invoiceNumber invs)
    by (apply list_elem_of_In, in_map, list_elem_of_In, Hin).
  destruct (map Invoice.invoiceNumber invs) as [|n ns]; [inversion Hn|].
  destruct (Math_max_greatest ns n) as [_ Hmax]. specialize (Hmax _ Hn). lia.
Qed.

Lemma voucherNumber_lt_new (vs : list Voucher.t) (v : Voucher.t) :
  v ∈ vs -> (Voucher.voucherNumber v < PaymentVouchers.newVoucherNumber vs)%Z.
Proof.
  intros Hin. unfold PaymentVouchers.newVoucherNumber.
  assert (Hn : Voucher.voucherNumber v ∈ map Voucher.voucherNumber vs)
    by (apply list_elem_of_In, in_map, list_elem_of_In, Hin).
  destruct (map Voucher.voucherNumber vs) as [|n ns]; [inversion Hn|].
  destruct (Math_max_greatest ns n) as [_ Hmax]. specialize (Hmax _ Hn). lia.
Qed.

(** X1.  The number given to a new invoice is greater than the number of
    every invoice of the snapshot it was computed from, and likewise for
    vouchers: within one snapshot the allocator never reuses a number. *)
Theorem allocated_number_exceeds_snapshot :
  (forall (invs : list Invoice.t) (inv : Invoice.t),
     inv ∈ invs ->
     (Invoice.invoiceNumber inv < Invoices.newInvoiceNumber invs)%Z) /\
  (forall (vs : list Voucher.t) (v : Voucher.t),
     v ∈ vs ->
     (Voucher.voucherNumber v < PaymentVouchers.newVoucherNumber vs)%Z).
Proof. split; [exact invoiceNumber_lt_new | exact voucherNumber_lt_new]. Qed.

Lemma allocated_number_exceeds_snapshot_witness :
  (Invoice.invoiceNumber (Sample.numberedInvoice 1005) <
   Invoices.newInvoiceNumber
     [Sample.numberedInvoice 1001; Sample.numberedInvoice 1005])%Z.
Proof.
  apply (proj1 allocated_number_exceeds_snapshot). right. left.
Defined.

(** X2.  Once the snapshot holds the invoice just created besides the
    invoices it held before, in whatever order, the next number is the last
    one plus one: numbers given one after the other are consecutive. *)
Theorem next_invoice_number_is_consecutive (invs snapshot : list Invoice.t)
    (data : FormData.t) :
  snapshot ≡ₚ Invoices.newDoc data (Invoices.newInvoiceNumber invs) :: invs ->
  Invoices.newInvoiceNumber snapshot = (Invoices.newInvoiceNumber invs + 1)%Z.
Proof.
  intros Hp. apply newInvoiceNumber_greatest.
  - apply list_elem_of_In, in_map_iff.
    exists (Invoices.newDoc data (Invoices.newInvoiceNumber invs)).
    split; [reflexivity|]. apply list_elem_of_In. rewrite Hp. left.
  - intros n Hn. apply list_elem_of_In, in_map_iff in Hn as (inv & <- & Hin).
    apply list_elem_of_In in Hin. rewrite Hp in Hin.
    apply elem_of_cons in Hin as [->|Hin]; [reflexivity|].
    apply Z.lt_le_incl.
    apply (invoiceNumber_lt_new invs inv Hin).
Qed.

Lemma next_invoice_number_is_consecutive_witness :
  let invs := [Sample.numberedInvoice 1001; Sample.numberedInvoice 1005] in
  let data := Invoices.dataToSave (InvoiceForm.session "2024-03-09" None []) in
  let created := Invoices.newDoc data (Invoices.newInvoiceNumber invs) in
  Invoices.newInvoiceNumber
    [Sample.numberedInvoice 1001; created; Sample.numberedInvoice 1005] =
  (Invoices.newInvoiceNumber invs + 1)%Z.
Proof.
  intros invs data created.
  apply (next_invoice_number_is_consecutive invs _ data).
  apply Permutation_swap.
Defined.

(** ** Payments and the vouchers of an invoice *)

Lemma Paid_not_offered : Paid ∉ [Pending; PartiallyPaid].
Proof.
  intros H. apply elem_of_cons in H as [H|H]; [discriminate H|].
  apply list_elem_of_singleton in H. discriminate H.
Qed.

Lemma PartiallyPaid_offered : PartiallyPaid ∈ [Pending; PartiallyPaid].
Proof. right. left. Qed.

Section PaymentLedger.
Import PaymentVouchers VouchersForInvoiceModal.

Variables (vouchersState : list Voucher.t) (newVoucherRef : string) (now : Z).
Variables (voucherData : VoucherData.t) (store : Db.t).

Local Abbreviation invoiceRef := (VoucherData.invoiceId voucherData).
Local Abbreviation amount := (VoucherData.amount voucherData).
Local Abbreviation out := (handleSave vouchersState newVoucherRef now voucherData store).
Local Abbreviation newVoucher :=
  (Voucher.mk voucherData (newVoucherNumber vouchersState) now).
Local Abbreviation paidOrZero inv := (ToNumber (or (Invoice.paidAmount inv) (VNum (lit 0)))).
Local Abbreviation paidInvoice inv :=
  (Tx.patch
     (Spec.paymentUpdate (ToNumber (Invoice.total inv)) (paidOrZero inv) amount) inv).

Lemma vouchersQuery_fresh (id : string) :
  Db.vouchers store !! newVoucherRef = None ->
  vouchersQuery id store !! newVoucherRef = None.
Proof.
  intros Hfresh. unfold vouchersQuery. apply map_lookup_filter_None. left. exact Hfresh.
Qed.

Lemma vouchersQuery_payment (inv : Invoice.t) (id : string) :
  Db.invoices store !! invoiceRef = Some inv ->
  Db.vouchers store !! newVoucherRef = None ->
  vouchersQuery id (db out) =
  if decide (invoiceRef = id)
  then <[newVoucherRef := newVoucher]> (vouchersQuery id store)
  else vouchersQuery id store.
Proof.
  intros Hinv Hfresh. rewrite (handleSave_found _ _ _ _ _ inv Hinv).
  unfold vouchersQuery. cbn [db Db.vouchers]. rewrite map_filter_insert.
  cbn [snd Voucher.data].
  destruct (decide (invoiceRef = id)) as [Heq|Hne]; [reflexivity|].
  rewrite (delete_id _ _ Hfresh). reflexivity.
Qed.

(** X4.  After a committed payment against a fresh voucher id, the voucher
    list of the paid invoice is the old list with the new voucher added, and
    the voucher list of every other invoice is unchanged. *)
Theorem recordPayment_lists_voucher_under_its_invoice (inv : Invoice.t) :
  Db.invoices store !! invoiceRef = Some inv ->
  Db.vouchers store !! newVoucherRef = None ->
  vouchersQuery invoiceRef (db out) =
    <[newVoucherRef := newVoucher]> (vouchersQuery invoiceRef store) /\
  forall id : string,
    id <> invoiceRef -> vouchersQuery id (db out) = vouchersQuery id store.
Proof.
  intros Hinv Hfresh. split.
  - rewrite (vouchersQuery_payment inv _ Hinv Hfresh), decide_True by reflexivity.
    reflexivity.
  - intros id Hne.
    rewrite (vouchersQuery_payment inv _ Hinv Hfresh), decide_False by congruence.
    reflexivity.
Qed.

(** X5.  After a committed payment the voucher form offers the invoice again
    exactly when something remains to be paid: with a new remainingAmount
    <= 0 no customer is offered it, otherwise its own customer is. *)
Theorem paid_invoice_offered_iff_amount_remains (inv : Invoice.t) :
  Db.invoices store !! invoiceRef = Some inv ->
  exists inv' : Invoice.t,
    Db.invoices (db out) !! invoiceRef = Some inv' /\
    PaymentVoucherForm.invoicesQuery (Invoice.customerId inv) (db out) !! invoiceRef =
      (if leb (ToNumber (Invoice.remainingAmount inv')) (lit 0)
       then None else Some inv') /\
    (leb (ToNumber (Invoice.remainingAmount inv')) (lit 0) = true ->
     forall customerId : string,
       PaymentVoucherForm.invoicesQuery customerId (db out) !! invoiceRef = None).
Proof.
  intros Hinv. exists (paidInvoice inv).
  rewrite (handleSave_found _ _ _ _ _ inv Hinv).
  unfold PaymentVoucherForm.invoicesQuery. cbn [db Db.invoices].
  cbn [Invoice.remainingAmount Tx.patch Spec.paymentUpdate Tx.remainingAmount ToNumber].
  split; [apply lookup_insert_eq|]. split.
  - destruct (leb _ (lit 0)) eqn:Hle.
    + apply map_lookup_filter_None. right. intros inv' Hlook.
      rewrite lookup_insert_eq in Hlook. injection Hlook as <-.
      cbn. rewrite Hle. intros [_ H]. exact (Paid_not_offered H).
    + apply map_lookup_filter_Some. split; [apply lookup_insert_eq|].
      cbn. rewrite Hle. split; [reflexivity | exact PartiallyPaid_offered].
  - intros Hle customerId. apply map_lookup_filter_None. right. intros inv' Hlook.
    rewrite lookup_insert_eq in Hlook. injection Hlook as <-.
    cbn. rewrite Hle. intros [_ H]. exact (Paid_not_offered H).
Qed.

End PaymentLedger.

Lemma recordPayment_lists_voucher_under_its_invoice_witness :
  let vd := Sample.voucherData "i1" 40 in
  let out := PaymentVouchers.handleSave [] "v1" 0 vd Sample.store in
  VouchersForInvoiceModal.vouchersQuery "i1" (PaymentVouchers.db out) =
    <["v1" := Voucher.mk vd 1 0]>
      (VouchersForInvoiceModal.vouchersQuery "i1" Sample.store) /\
  forall id : string,
    id <> "i1" ->
    VouchersForInvoiceModal.vouchersQuery id (PaymentVouchers.db out) =
    VouchersForInvoiceModal.vouchersQuery id Sample.store.
Proof.
  intros vd out.
  apply (recordPayment_lists_voucher_under_its_invoice [] "v1" 0%Z vd Sample.store
           (Sample.invoice "2024-03-01" 100 0 Pending)); reflexivity.
Defined.

Lemma paid_invoice_offered_iff_amount_remains_witness :
  let vd := Sample.voucherData "i1" 40 in
  let out := PaymentVouchers.handleSave [] "v1" 0 vd Sample.store in
  exists inv' : Invoice.t,
    Db.invoices (PaymentVouchers.db out) !! "i1" = Some inv' /\
    PaymentVoucherForm.invoicesQuery "c1" (PaymentVouchers.db out) !! "i1" =
      (if leb (ToNumber (Invoice.remainingAmount inv')) (lit 0)
       then None else Some inv') /\
    (leb (ToNumber (Invoice.remainingAmount inv')) (lit 0) = true ->
     forall customerId : string,
       PaymentVoucherForm.invoicesQuery customerId (PaymentVouchers.db out) !! "i1" = None).
Proof.
  intros vd out.
  apply (paid_invoice_offered_iff_amount_remains [] "v1" 0%Z vd Sample.store
           (Sample.invoice "2024-03-01" 100 0 Pending)).
  reflexivity.
Defined.

(** X6.  Deleting an invoice removes that invoice document and nothing else:
    the other invoices and all vouchers, its own included, stay as they are,
    and every later payment against the deleted invoice is refused with
    "Invoice does not exist!" and leaves the store untouched.  A delete that
    is not confirmed changes nothing. *)
Theorem deleted_invoice_keeps_vouchers_and_refuses_payments (id : string) (store : Db.t) :
  let store' := Invoices.handleDelete true id store in
  Db.invoices store' !! id = None /\
  (forall id' : string, id' <> id -> Db.invoices store' !! id' = Db.invoices store !! id') /\
  Db.vouchers store' = Db.vouchers store /\
  (forall (vs : list Voucher.t) (ref : string) (now : Z) (vd : VoucherData.t),
     VoucherData.invoiceId vd = id ->
     PaymentVouchers.handleSave vs ref now vd store' =
     PaymentVouchers.mkOutcome store' true (Some (Tx.Thrown "Invoice does not exist!"))) /\
  Invoices.handleDelete false id store = store.
Proof.
  cbn zeta. unfold Invoices.handleDelete. cbn [Db.invoices Db.vouchers].
  split; [apply lookup_delete_eq|]. split.
  { intros id' Hne. apply lookup_delete_ne. congruence. }
  split; [reflexivity|]. split; [|reflexivity].
  intros vs ref now vd Hid. apply handleSave_missing.
  rewrite Hid. apply lookup_delete_eq.
Qed.

(** ** The invoice form *)

(** No event touches the fields the form carries over from the invoice it
    was opened on. *)
Lemma session_carried (today : string) (invoice : option (string * Invoice.t))
    (es : list InvoiceForm.Event) :
  let opened := InvoiceForm.load today invoice in
  let formData := InvoiceForm.session today invoice es in
  FormData.paidAmount formData = FormData.paidAmount opened /\
  FormData.remainingAmount formData = FormData.remainingAmount opened /\
  FormData.invoiceNumber formData = FormData.invoiceNumber opened /\
  FormData.status formData = FormData.status opened /\
  FormData.id formData = FormData.id opened.
Proof.
  cbn zeta. unfold InvoiceForm.session.
  induction es as [|e es IH] using rev_ind; [cbn; auto|].
  rewrite fold_left_app. cbn [fold_left].
  destruct IH as (H1 & H2 & H3 & H4 & H5).
  rewrite <- H1, <- H2, <- H3, <- H4, <- H5.
  destruct e; cbn; auto.
Qed.

(** X8.  Adding a row to the invoice form appends the blank item (quantity
    1, price 0) and leaves the form's total as it was. *)
Theorem addItem_keeps_total (today : string) (invoice : option (string * Invoice.t))
    (es : list InvoiceForm.Event) :
  let formData := InvoiceForm.session today invoice es in
  let formData' := InvoiceForm.step InvoiceForm.AddItem formData in
  FormData.items formData' = FormData.items formData ++ [InvoiceForm.blankItem] /\
  FormData.total formData' = FormData.total formData.
Proof.
  cbn zeta. split; [reflexivity|]. rewrite session_total.
  cbn [InvoiceForm.step InvoiceForm.handle InvoiceForm.addItem InvoiceForm.withItems
       InvoiceForm.recalculate FormData.items FormData.total].
  f_equal. unfold InvoiceForm.calculateTotal. rewrite fold_left_app. cbn [fold_left].
  replace (mul (LineItem.quantity InvoiceForm.blankItem)
               (LineItem.price InvoiceForm.blankItem))
    with (lit 0) by (vm_compute; reflexivity).
  apply add_lit0_r.
Qed.

(** X11.  An edit writes back the paid amount, the status and the number of
    the invoice as the form loaded them, whatever the store holds for that
    invoice by the time of the save: the stored paidAmount becomes
    Number(loaded paidAmount) || 0, so a payment recorded after the form was
    opened is undone in the invoice while its voucher stays. *)
Theorem edit_writes_back_loaded_payment_state (today : string) (id : string)
    (loaded stored : Invoice.t) (es : list InvoiceForm.Event)
    (invs : list Invoice.t) (newId : string) (store : Db.t) :
  Db.invoices store !! id = Some stored ->
  let formData := InvoiceForm.session today (Some (id, loaded)) es in
  let out := Invoices.handleSave invs (Some (id, loaded)) newId formData store in
  Db.vouchers (Invoices.db out) = Db.vouchers store /\
  exists inv' : Invoice.t,
    Db.invoices (Invoices.db out) !! id = Some inv' /\
    Invoice.paidAmount inv' =
      or (VNum (ToNumber (Invoice.paidAmount loaded))) (VNum (lit 0)) /\
    Invoice.status inv' = Invoice.status loaded /\
    Invoice.invoiceNumber inv' = Invoice.invoiceNumber loaded.
Proof.
  intros Hstored formData out. subst out. unfold Invoices.handleSave.
  rewrite Hstored. cbn [Invoices.db Db.invoices Db.vouchers].
  split; [reflexivity|]. rewrite lookup_insert_eq. eexists. split; [reflexivity|].
  destruct (session_carried today (Some (id, loaded)) es) as (Hp & _ & Hn & Hs & _).
  fold formData in Hp, Hn, Hs.
  unfold Invoices.merge, Invoices.dataToSave.
  cbn [Invoice.paidAmount Invoice.status Invoice.invoiceNumber FormData.paidAmount
       FormData.status FormData.invoiceNumber].
  rewrite Hp, Hn, Hs. cbn. auto.
Qed.

Lemma edit_writes_back_loaded_payment_state_witness :
  let loaded := Sample.invoice "2024-03-01" 100 0 Pending in
  let paid :=
    PaymentVouchers.db
      (PaymentVouchers.handleSave [] "v1" 0 (Sample.voucherData "i1" 40) Sample.store) in
  let formData :=
    InvoiceForm.session "2024-03-09" (Some ("i1", loaded))
      [InvoiceForm.DateChange "2024-03-02"] in
  let out := Invoices.handleSave [loaded] (Some ("i1", loaded)) "i2" formData paid in
  Db.vouchers (Invoices.db out) = Db.vouchers paid /\
  exists inv' : Invoice.t,
    Db.invoices (Invoices.db out) !! "i1" = Some inv' /\
    Invoice.paidAmount inv' = VNum (lit 0) /\
    Invoice.status inv' = Pending /\
    Invoice.invoiceNumber inv' = 1001%Z.
Proof.
  intros loaded paid formData out.
  apply (edit_writes_back_loaded_payment_state "2024-03-09" "i1" loaded
           (Invoice.mk "c1" "Amal" "2024-03-01" None (VNum (lit 100))
              (VNum (lit 40)) (VNum (lit 60)) 1001 PartiallyPaid)
           [InvoiceForm.DateChange "2024-03-02"] [loaded] "i2" paid).
  vm_compute; reflexivity.
Defined.

(** X12.  An invoice created from a new form starts unpaid: it is stored
    under the id the store gave it with paidAmount 0, remainingAmount equal
    to its total, the status Pending and the number the allocator computed,
    and the voucher form offers it to its customer. *)
Theorem created_invoice_starts_unpaid_and_offered (today : string)
    (es : list InvoiceForm.Event) (invs : list Invoice.t) (newId : string)
    (store : Db.t) :
  let formData := InvoiceForm.session today None es in
  let out := Invoices.handleSave invs None newId formData store in
  exists inv' : Invoice.t,
    Db.invoices (Invoices.db out) !! newId = Some inv' /\
    Invoice.paidAmount inv' = VNum (lit 0) /\
    Invoice.remainingAmount inv' = Invoice.total inv' /\
    Invoice.status inv' = Pending /\
    Invoice.invoiceNumber inv' = Invoices.newInvoiceNumber invs /\
    PaymentVoucherForm.invoicesQuery (FormData.customerId formData) (Invoices.db out)
      !! newId = Some inv'.
Proof.
  intros formData out. subst out. rewrite handleSave_create.
  unfold PaymentVoucherForm.invoicesQuery. cbn [Invoices.db Db.invoices].
  rewrite lookup_insert_eq. eexists. split; [reflexivity|].
  destruct (session_carried today None es) as (Hp & _).
  fold formData in Hp. cbn [InvoiceForm.load FormData.paidAmount] in Hp.
  pose proof (session_total today None es) as Ht. fold formData in Ht.
  unfold Invoices.newDoc, Invoices.dataToSave.
  cbn [Invoice.paidAmount Invoice.remainingAmount Invoice.total Invoice.status
       Invoice.invoiceNumber Invoice.customerId FormData.paidAmount FormData.total
       FormData.remainingAmount FormData.customerId].
  rewrite Hp, Ht. cbn [ToNumber or truthy].
  rewrite sub_lit0_r. repeat (split; [reflexivity|]).
  apply map_lookup_filter_Some. split; [apply lookup_insert_eq|].
  cbn. split; [reflexivity|left].
Qed.

(** ** The dashboard: recent invoices and the monthly series *)

Lemma firstOccurrences_elem_of {A} `{EqDecision A} (l : list A) (x : A) :
  x ∈ Spec.firstOccurrences l <-> x ∈ l.
Proof.
  induction l as [|y l IH]; cbn [Spec.firstOccurrences]; [reflexivity|].
  rewrite !elem_of_cons, list_elem_of_filter, IH.
  destruct (decide (x = y)); tauto.
Qed.

Lemma firstOccurrences_NoDup {A} `{EqDecision A} (l : list A) :
  NoDup (Spec.firstOccurrences l).
Proof.
  induction l as [|y l IH]; cbn [Spec.firstOccurrences]; [constructor|].
  constructor; [|apply NoDup_filter, IH].
  rewrite list_elem_of_filter. intros [Hne _]. apply Hne. reflexivity.
Qed.

Section Series.
Import Dashboard.

Variables (getTime : string -> Z) (getMonth : string -> nat).

Local Abbreviation monthName := (Dashboard.monthName getMonth).
Local Abbreviation sort := (Dashboard.sort getTime).
Local Abbreviation monthSales := (Spec.monthSales monthName).
Local Abbreviation invTotal := (fun inv : Invoice.t => ToNumber (Invoice.total inv)).
Local Abbreviation view l := (onInvoices getTime getMonth l).

Lemma salesData_names (allInvoices : list Invoice.t) :
  map name (salesData (view allInvoices)) =
  Spec.firstOccurrences (map monthName (sort allInvoices)).
Proof.
  rewrite salesData_monthlySales. unfold Spec.monthlySales.
  rewrite map_map. cbn [name]. apply map_id.
Qed.

(** X13.  recentInvoices holds the five latest invoices, latest first, or
    all of them when there are fewer: it has min(5, n) entries in descending
    date order, and the invoices left out are exactly the others, none of
    them later than one that is shown. *)
Theorem recentInvoices_are_the_five_latest (allInvoices : list Invoice.t) :
  let recent := recentInvoices (view allInvoices) in
  length recent = min 5 (length allInvoices) /\
  StronglySorted (Spec.latestFirst getTime) recent /\
  exists rest : list Invoice.t,
    recent ++ rest ≡ₚ allInvoices /\
    forall a b : Invoice.t, a ∈ recent -> b ∈ rest -> Spec.latestFirst getTime a b.
Proof.
  cbn zeta. unfold onInvoices. cbn [recentInvoices].
  pose proof (sort_sorted getTime allInvoices) as Hsorted.
  rewrite <- (take_drop 5 (sort allInvoices)) in Hsorted.
  apply StronglySorted_app in Hsorted as (Hcross & Htake & _).
  split.
  { rewrite length_take, (Permutation_length (sort_Permutation getTime allInvoices)).
    reflexivity. }
  split; [exact Htake|].
  exists (drop 5 (sort allInvoices)). split; [|exact Hcross].
  rewrite take_drop. apply sort_Permutation.
Qed.

(** X16.  The series has one bucket for each month that occurs: no two
    buckets carry the same name, and a name is in the series exactly when
    it is the month name of some invoice. *)
Theorem one_bucket_per_month_that_occurs (allInvoices : list Invoice.t) :
  NoDup (map name (salesData (view allInvoices))) /\
  forall k : option string,
    k ∈ map name (salesData (view allInvoices)) <->
    exists inv : Invoice.t, inv ∈ allInvoices /\ monthName inv = k.
Proof.
  rewrite salesData_names. split; [apply firstOccurrences_NoDup|].
  intros k. rewrite firstOccurrences_elem_of. split.
  - intros Hk. apply list_elem_of_In, in_map_iff in Hk as (inv & Hname & Hin).
    exists inv. split; [|exact Hname].
    rewrite <- (sort_Permutation getTime allInvoices). apply list_elem_of_In, Hin.
  - intros (inv & Hin & <-). apply list_elem_of_In, in_map, list_elem_of_In.
    rewrite sort_Permutation. exact Hin.
Qed.

End Series.

(** ** Signing in and registering *)

Lemma NoDup_map_inj {A B} (f : A -> B) (l : list A) (x y : A) :
  NoDup (map f l) -> x ∈ l -> y ∈ l -> f x = f y -> x = y.
Proof.
  induction l as [|z l IH]; intros Hnd Hx Hy Hf; [inversion Hx|].
  cbn [map] in Hnd. apply NoDup_cons in Hnd as [Hz Hnd].
  apply elem_of_cons in Hx as [->|Hx], Hy as [->|Hy].
  - reflexivity.
  - exfalso. apply Hz. rewrite Hf. apply list_elem_of_In, in_map, list_elem_of_In, Hy.
  - exfalso. apply Hz. rewrite <- Hf. apply list_elem_of_In, in_map, list_elem_of_In, Hx.
  - exact (IH Hnd Hx Hy Hf).
Qed.

Lemma profilesQuery_nil (name : AuthPage.text) (profiles : list AuthPage.Profile) :
  AuthPage.profilesQuery name profiles = [] <->
  name ∉ map AuthPage.username profiles.
Proof.
  unfold AuthPage.profilesQuery. induction profiles as [|p l IH]; cbn [map].
  - split; [intros _; apply not_elem_of_nil | reflexivity].
  - rewrite filter_cons, not_elem_of_cons.
    destruct (decide (AuthPage.username p = name)) as [Heq|Hne].
    + split; [discriminate | intros [Hne _]; congruence].
    + rewrite IH. split; [intros H; split; [congruence | exact H] | tauto].
Qed.

Lemma addDoc_Permutation (pos : nat) (p : AuthPage.Profile)
    (profiles : list AuthPage.Profile) :
  AuthPage.addDoc pos p profiles ≡ₚ p :: profiles.
Proof.
  unfold AuthPage.addDoc. rewrite <- Permutation_middle, take_drop. reflexivity.
Qed.

Section Auth.
Import AuthPage.

Variable toLowerCase : text -> text.

Local Abbreviation submit := (handleSubmit toLowerCase).

(** X17.  What a registration does.  When it succeeds, the user name was
    not taken in its lowercased form, the password has at least 6 units,
    the user name as typed matches [a-zA-Z0-9]+, the user is signed in under
    the lowercased name and the collection gains exactly the new profile;
    when it reports an error, nothing is written. *)
Theorem registration_writes_only_valid_profiles (username password : text) (now : Z)
    (pos : nat) (profiles : list Profile) :
  match submit false username password now pos profiles with
  | (profiles', LoginSuccess name) =>
      name = toLowerCase username /\
      (toLowerCase username ∉ map AuthPage.username profiles) /\
      6 <= length password /\
      usernamePattern username = true /\
      profiles' ≡ₚ mkProfile (toLowerCase username) password now :: profiles
  | (profiles', Error _) => profiles' = profiles
  end.
Proof.
  unfold handleSubmit.
  destruct (profilesQuery (toLowerCase username) profiles) as [|d ds] eqn:Hq;
    [|reflexivity].
  apply profilesQuery_nil in Hq.
  destruct (length password <? 6)%nat eqn:Hlen; [reflexivity|].
  apply Nat.ltb_ge in Hlen.
  destruct (usernamePattern username) eqn:Hpat; [|reflexivity]. cbn [negb].
  repeat (split; [first [reflexivity | assumption]|]).
  apply addDoc_Permutation.
Qed.

Lemma handleSubmit_registration (username password : text) (now : Z) (pos : nat)
    (profiles : list Profile) :
  submit false username password now pos profiles =
  complete pos (registration toLowerCase username password now profiles) profiles.
Proof.
  unfold handleSubmit, registration, complete.
  destruct (profilesQuery (toLowerCase username) profiles); [|reflexivity].
  destruct (length password <? 6)%nat; [reflexivity|].
  destruct (usernamePattern username); reflexivity.
Qed.

Lemma registration_accepted (username password : text) (now : Z)
    (profiles : list Profile) :
  (toLowerCase username ∉ map AuthPage.username profiles) ->
  6 <= length password ->
  usernamePattern username = true ->
  registration toLowerCase username password now profiles =
  inl (mkProfile (toLowerCase username) password now).
Proof.
  intros Hfree Hlen Hpat. unfold registration.
  rewrite (proj2 (profilesQuery_nil _ _) Hfree).
  rewrite (proj2 (Nat.ltb_ge _ _) Hlen), Hpat. reflexivity.
Qed.

(** X18.  User names stay unique only as long as registrations do not
    overlap.  Of two acceptable registrations of one name (the same after
    lowercasing) made one after the other, the first succeeds and the
    second is refused as taken.  Made at once, so that both queries are
    answered before either profile is added, both succeed, both users are
    signed in under the name, and the collection holds two profiles with
    it. *)
Theorem overlapping_registrations_share_a_name
    (username1 password1 : text) (now1 : Z) (pos1 : nat)
    (username2 password2 : text) (now2 : Z) (pos2 : nat)
    (profiles : list Profile) :
  toLowerCase username1 = toLowerCase username2 ->
  (toLowerCase username1 ∉ map AuthPage.username profiles) ->
  6 <= length password1 -> 6 <= length password2 ->
  usernamePattern username1 = true -> usernamePattern username2 = true ->
  let name := toLowerCase username1 in
  let profile1 := mkProfile name password1 now1 in
  let profile2 := mkProfile name password2 now2 in
  (exists profiles1 : list Profile,
     submit false username1 password1 now1 pos1 profiles =
       (profiles1, LoginSuccess name) /\
     submit false username2 password2 now2 pos2 profiles1 =
       (profiles1, Error usernameTaken)) /\
  (exists profiles2 : list Profile,
     overlappingRegistrations toLowerCase username1 password1 now1 pos1
       username2 password2 now2 pos2 profiles =
       (profiles2, LoginSuccess name, LoginSuccess name) /\
     profiles2 ≡ₚ profile2 :: profile1 :: profiles /\
     ~ NoDup (map AuthPage.username profiles2)).
Proof.
  intros Hsame Hfree Hlen1 Hlen2 Hpat1 Hpat2 name profile1 profile2.
  assert (Hfree2 : toLowerCase username2 ∉ map AuthPage.username profiles)
    by (rewrite <- Hsame; exact Hfree).
  split.
  - exists (addDoc pos1 profile1 profiles). split.
    + rewrite handleSubmit_registration, registration_accepted by assumption.
      reflexivity.
    + unfold handleSubmit.
      destruct (profilesQuery (toLowerCase username2) (addDoc pos1 profile1 profiles))
        as [|d ds] eqn:Hq; [|reflexivity].
      exfalso. apply profilesQuery_nil in Hq. apply Hq.
      apply list_elem_of_In, in_map_iff. exists profile1.
      split; [exact Hsame|]. apply list_elem_of_In.
      rewrite addDoc_Permutation. left.
  - exists (addDoc pos2 profile2 (addDoc pos1 profile1 profiles)).
    unfold overlappingRegistrations.
    rewrite !registration_accepted by assumption. rewrite <- Hsame.
    cbn [complete AuthPage.username]. split; [reflexivity|]. split.
    + rewrite !addDoc_Permutation. reflexivity.
    + rewrite !addDoc_Permutation. cbn [map AuthPage.username].
      intros Hnd. apply NoDup_cons in Hnd as [Hnin _]. apply Hnin. left.
Qed.


(** X20.  Signing in never writes, and with pairwise distinct user names it
    succeeds exactly when some profile has the lowercased user name and the
    given password; the user is then signed in under that lowercased
    name. *)
Theorem sign_in_checks_stored_password (username password : text) (now : Z)
    (pos : nat) (profiles : list Profile) :
  NoDup (map AuthPage.username profiles) ->
  (submit true username password now pos profiles).1 = profiles /\
  ((exists name : text,
      (submit true username password now pos profiles).2 = LoginSuccess name) <->
   (exists p : Profile,
      p ∈ profiles /\ AuthPage.username p = toLowerCase username /\
      AuthPage.password p = password)) /\
  (forall name : text,
     (submit true username password now pos profiles).2 = LoginSuccess name ->
     name = toLowerCase username).
Proof.
  intros Hnd. unfold handleSubmit.
  destruct (profilesQuery (toLowerCase username) profiles) as [|d ds] eqn:Hq.
  - split; [reflexivity|]. split; [|discriminate].
    apply profilesQuery_nil in Hq. split; [intros [name H]; discriminate H|].
    intros (p & Hin & Hname & _). exfalso. apply Hq. rewrite <- Hname.
    apply list_elem_of_In, in_map, list_elem_of_In, Hin.
  - assert (Hd : AuthPage.username d = toLowerCase username /\ d ∈ profiles).
    { apply (list_elem_of_filter (fun p => AuthPage.username p = toLowerCase username)).
      unfold profilesQuery in Hq. rewrite Hq. left. }
    destruct Hd as [Hdname Hdin].
    destruct (decide (AuthPage.password d = password)) as [Hpw|Hpw].
    + rewrite bool_decide_eq_true_2 by exact Hpw. cbn [fst snd].
      split; [reflexivity|]. split.
      * split; [intros _; exists d; auto | intros _; eexists; reflexivity].
      * intros name H. injection H as <-. exact Hdname.
    + rewrite bool_decide_eq_false_2 by exact Hpw. cbn [fst snd].
      split; [reflexivity|]. split; [|discriminate].
      split; [intros [name H]; discriminate H|].
      intros (p & Hin & Hname & Hp). exfalso. apply Hpw.
      rewrite (NoDup_map_inj AuthPage.username profiles d p Hnd Hdin Hin); [exact Hp|].
      congruence.
Qed.

End Auth.

Lemma overlapping_registrations_share_a_name_witness :
  exists profiles2 : list AuthPage.Profile,
    AuthPage.overlappingRegistrations Sample.asciiLower
      Sample.userAmal1 Sample.secret1 1 0 Sample.useramal1 Sample.secret1 2 0 [] =
      (profiles2, AuthPage.LoginSuccess Sample.useramal1,
       AuthPage.LoginSuccess Sample.useramal1) /\
    profiles2 ≡ₚ [AuthPage.mkProfile Sample.useramal1 Sample.secret1 2;
                  AuthPage.mkProfile Sample.useramal1 Sample.secret1 1] /\
    ~ NoDup (map AuthPage.username profiles2).
Proof.
  apply (proj2 (overlapping_registrations_share_a_name Sample.asciiLower
                  Sample.userAmal1 Sample.secret1 1%Z 0%nat
                  Sample.useramal1 Sample.secret1 2%Z 0%nat []
                  ltac:(reflexivity) ltac:(apply not_elem_of_nil)
                  ltac:(vm_compute; lia) ltac:(vm_compute; lia)
                  ltac:(reflexivity) ltac:(reflexivity))).
Defined.


Lemma sign_in_checks_stored_password_witness :
  let registered := [AuthPage.mkProfile Sample.useramal1 Sample.secret1 0] in
  exists p : AuthPage.Profile,
    p ∈ registered /\
    AuthPage.username p = Sample.asciiLower Sample.userAmal1 /\
    AuthPage.password p = Sample.secret1.
Proof.
  intros registered.
  assert (Hnd : NoDup (map AuthPage.username registered))
    by (cbn; apply NoDup_singleton).
  apply (proj1 (proj1 (proj2 (sign_in_checks_stored_password Sample.asciiLower
                                Sample.userAmal1 Sample.secret1 7%Z 0%nat
                                registered Hnd)))).
  exists Sample.useramal1. vm_compute. reflexivity.
Defined.

(** ** Composing operations *)

(** X21.  For an invoice at rest whose total and paidAmount are numbers
    other than NaN, the remaining amount shown in the invoice table, and
    suggested by the voucher form when the invoice is picked, is the stored
    remainingAmount. *)
Theorem shown_remaining_is_stored_remaining (inv : Invoice.t) (total paid : number)
    (offered : gmap string Invoice.t) (id : string)
    (form : PaymentVoucherForm.FormData) :
  Invoice.total inv = VNum total -> total <> NaN ->
  Invoice.paidAmount inv = VNum paid -> paid <> NaN ->
  Spec.atRest inv ->
  offered !! id = Some inv ->
  VNum (Invoices.remaining inv) = Invoice.remainingAmount inv /\
  PaymentVoucherForm.amount (PaymentVoucherForm.handleInvoiceChange offered id form) =
    PaymentVoucherForm.Suggested (ToNumber (Invoice.remainingAmount inv)).
Proof.
  intros Htotal Ht Hpaid Hp Hrest Hoff. unfold Spec.atRest in Hrest.
  unfold PaymentVoucherForm.handleInvoiceChange, Invoices.remaining.
  rewrite Hoff, Hrest, Htotal, Hpaid, (or_zero _ Ht), (or_zero _ Hp).
  split; reflexivity.
Qed.

Lemma shown_remaining_is_stored_remaining_witness :
  let inv := Sample.invoice "2024-03-01" 100 0 Pending in
  let form :=
    PaymentVoucherForm.mkFormData "c1" "" PaymentVoucherForm.Blank "2024-03-05" "Amal" None in
  VNum (Invoices.remaining inv) = Invoice.remainingAmount inv /\
  PaymentVoucherForm.amount
    (PaymentVoucherForm.handleInvoiceChange (Db.invoices Sample.store) "i1" form) =
    PaymentVoucherForm.Suggested (ToNumber (Invoice.remainingAmount inv)).
Proof.
  intros inv form.
  apply (shown_remaining_is_stored_remaining inv (lit 100) (lit 0)
           (Db.invoices Sample.store) "i1" form);
    first [reflexivity | vm_compute; discriminate | vm_compute; reflexivity].
Defined.

(** X22.  The allocator is not atomic: two invoices created from the same
    snapshot, as two sessions do that have not yet seen each other's write,
    are both stored and carry the same invoice number. *)
Theorem same_snapshot_gives_same_invoice_number (invs : list Invoice.t)
    (id1 id2 : string) (form1 form2 : FormData.t) (store : Db.t) :
  id1 <> id2 ->
  let store1 := Invoices.db (Invoices.handleSave invs None id1 form1 store) in
  let store2 := Invoices.db (Invoices.handleSave invs None id2 form2 store1) in
  exists inv1 inv2 : Invoice.t,
    Db.invoices store2 !! id1 = Some inv1 /\
    Db.invoices store2 !! id2 = Some inv2 /\
    Invoice.invoiceNumber inv1 = Invoice.invoiceNumber inv2.
Proof.
  intros Hne store1 store2. subst store1 store2. rewrite !handleSave_create.
  cbn [Invoices.db Db.invoices].
  rewrite lookup_insert_ne, !lookup_insert_eq by congruence.
  eexists. eexists. split; [reflexivity|]. split; reflexivity.
Qed.

Lemma same_snapshot_gives_same_invoice_number_witness :
  let form := InvoiceForm.session "2024-03-09" None [] in
  let store1 := Invoices.db (Invoices.handleSave [] None "i2" form Sample.store) in
  let store2 := Invoices.db (Invoices.handleSave [] None "i3" form store1) in
  exists inv1 inv2 : Invoice.t,
    Db.invoices store2 !! "i2" = Some inv1 /\
    Db.invoices store2 !! "i3" = Some inv2 /\
    Invoice.invoiceNumber inv1 = Invoice.invoiceNumber inv2.
Proof.
  intros form.
  apply (same_snapshot_gives_same_invoice_number [] "i2" "i3" form form Sample.store).
  discriminate.
Defined.

